(** * generate_big_csv: the CSV fixture generator of test_suites

    A shallow embedding of [test_suites/generate_big_csv.py] and the
    properties of its output.  The script parses its command line with
    [argparse], prints the header line and then one data line per index of
    [range(0, args.rows)].

    Strings are [string]s over ASCII; Python integers are [Z]. *)

From Stdlib Require Import ZArith List String Ascii Bool Lia.
From Stdlib Require Import DecimalString DecimalZ DecimalFacts.
Import ListNotations.

Local Open Scope string_scope.
Local Open Scope Z_scope.

(** ** Python strings *)

Module Str.

Definition LF : ascii := "010"%char.

(** [c in s] for a one-character [c]. *)
Fixpoint contains (c : ascii) (s : string) : bool :=
  match s with
  | EmptyString => false
  | String d t => Ascii.eqb d c || contains c t
  end.

(** [s.startswith(p)]. *)
Definition startswith (s p : string) : bool := String.prefix p s.

(** [s.split(sep)] for a one-character separator: the pieces between the
    separators, empty pieces included, so the result is never empty. *)
Fixpoint split (sep : ascii) (s : string) : list string :=
  match s with
  | EmptyString => [EmptyString]
  | String c t =>
      if Ascii.eqb c sep then EmptyString :: split sep t
      else match split sep t with
           | [] => [String c EmptyString]
           | w :: ws => String c w :: ws
           end
  end.

(** [s.split(sep, 1)] where [sep] occurs in [s]: the text before the first
    separator and the text after it. *)
Fixpoint split1 (sep : ascii) (s : string) : string * string :=
  match s with
  | EmptyString => (EmptyString, EmptyString)
  | String c t =>
      if Ascii.eqb c sep then (EmptyString, t)
      else let (a, b) := split1 sep t in (String c a, b)
  end.

(** [s[n:]]. *)
Fixpoint drop (n : nat) (s : string) : string :=
  match n, s with
  | O, _ => s
  | S n', String _ t => drop n' t
  | S _, EmptyString => EmptyString
  end.

(** [s[:n]]. *)
Fixpoint take (n : nat) (s : string) : string :=
  match n, s with
  | S n', String c t => String c (take n' t)
  | _, _ => EmptyString
  end.

(** ['0' <= c <= '9']. *)
Definition is_digit (c : ascii) : bool :=
  let n := nat_of_ascii c in (48 <=? n)%nat && (n <=? 57)%nat.

(** The ASCII white space [int] skips around a literal: tab, line feed,
    vertical tab, form feed, carriage return and space. *)
Definition is_space (c : ascii) : bool :=
  let n := nat_of_ascii c in
  ((9 <=? n)%nat && (n <=? 13)%nat) || (n =? 32)%nat.

Fixpoint lstrip (s : string) : string :=
  match s with
  | String c t => if is_space c then lstrip t else s
  | EmptyString => EmptyString
  end.

Fixpoint rstrip (s : string) : string :=
  match s with
  | EmptyString => EmptyString
  | String c t =>
      match rstrip t with
      | EmptyString => if is_space c then EmptyString else String c EmptyString
      | t' => String c t'
      end
  end.

Definition strip (s : string) : string := rstrip (lstrip s).

(** [all(is_digit(c) for c in s)]. *)
Fixpoint all_digits (s : string) : bool :=
  match s with
  | EmptyString => true
  | String c t => is_digit c && all_digits t
  end.

(** The number of decimal digits among the characters of [s]. *)
Fixpoint count_digits (s : string) : Z :=
  match s with
  | EmptyString => 0
  | String c t => (if is_digit c then 1 else 0) + count_digits t
  end.

(** [s.isascii()]. *)
Fixpoint is_ascii (s : string) : bool :=
  match s with
  | EmptyString => true
  | String c t => (nat_of_ascii c <? 128)%nat && is_ascii t
  end.

End Str.

(** ** Python integers and their decimal text *)

(** [str(n)], which is also what an f-string writes for [{n}]: the decimal
    digits of [n], with a minus sign in front of a negative number. *)
Definition str (n : Z) : string := NilZero.string_of_int (Z.to_int n).

(** The digits of an [int] literal: decimal digits, where single
    underscores may stand between two digits.  [after_digit] tells whether
    the previous character was a digit. *)
Fixpoint well_grouped (after_digit : bool) (s : string) : bool :=
  match s with
  | EmptyString => after_digit
  | String c t =>
      if Str.is_digit c then well_grouped true t
      else if Ascii.eqb c "_" then after_digit && well_grouped false t
      else false
  end.

Fixpoint remove_underscores (s : string) : string :=
  match s with
  | EmptyString => EmptyString
  | String c t =>
      if Ascii.eqb c "_" then remove_underscores t
      else String c (remove_underscores t)
  end.

Definition digits_value (s : string) : option Z :=
  if well_grouped false s
  then option_map Z.of_uint (NilEmpty.uint_of_string (remove_underscores s))
  else None.

(** The integer that the decimal literal [s] denotes, as [int(s)] reads it:
    white space around the literal is skipped and a sign may come first;
    [None] when [s] is no literal.  The interpreter's limit on the number
    of digits is not applied here; [builtin_int] adds it. *)
Definition py_int (s : string) : option Z :=
  match Str.strip s with
  | EmptyString => None
  | String c t =>
      if Ascii.eqb c "-" then option_map Z.opp (digits_value t)
      else if Ascii.eqb c "+" then digits_value t
      else digits_value (String c t)
  end.

(** [sys.get_int_max_str_digits()]: the interpreter refuses to convert a
    literal of more digits.  4300 is the default, which the script leaves
    as it is. *)
Definition int_max_str_digits : Z := 4300.

(** [int(s)] as the interpreter runs it on an ASCII string: the literal
    is converted unless it has more than [int_max_str_digits] digits, sign,
    underscores and white space not counted; [None] stands for
    [ValueError]. *)
Definition builtin_int (s : string) : option Z :=
  if Str.count_digits s <=? int_max_str_digits then py_int s else None.

(** ** Running a script: standard output, exits and exceptions *)

(** The values the script handles. *)
Inductive value : Type :=
| PyNone
| PyInt (n : Z)
| PyList (l : list Z).

Inductive exception : Type :=
| TypeError.

(** How a computation ends: with a value, in [sys.exit(code)], or in an
    exception nobody catches. *)
Inductive result (A : Type) : Type :=
| Value (a : A)
| SystemExit (code : Z)
| Raised (e : exception).

Arguments Value {A} a.
Arguments SystemExit {A} code.
Arguments Raised {A} e.

(** A computation takes the text written to standard output so far and
    returns the text written when it ends, with its result.  The error
    stream, which receives usage messages and tracebacks, is left out.
    Standard output is taken to accept every write: a closed pipe or a full
    device, where [print] raises [OSError], is outside the model. *)
Definition py (A : Type) : Type := string -> string * result A.

Definition ret {A} (a : A) : py A := fun out => (out, Value a).

Definition bind {A B} (m : py A) (k : A -> py B) : py B :=
  fun out =>
    match m out with
    | (out', Value a) => k a out'
    | (out', SystemExit code) => (out', SystemExit code)
    | (out', Raised e) => (out', Raised e)
    end.

Declare Scope py_scope.
Delimit Scope py_scope with py.
Notation "x <- m ;; k" := (bind m (fun x => k))
  (at level 61, m at next level, right associativity) : py_scope.
Notation "m ;; k" := (bind m (fun _ => k))
  (at level 61, right associativity) : py_scope.
Local Open Scope py_scope.

(** [sys.stdout.write(s)]. *)
Definition write (s : string) : py unit := fun out => (out ++ s, Value tt).

(** [print(s)]: the text and a line feed. *)
Definition print (s : string) : py unit := write (s ++ String Str.LF EmptyString).

Definition raise {A} (e : exception) : py A := fun out => (out, Raised e).

Definition sys_exit {A} (code : Z) : py A := fun out => (out, SystemExit code).

(** [for x in l: body(x)]. *)
Fixpoint for_ {A} (l : list A) (body : A -> py unit) : py unit :=
  match l with
  | [] => ret tt
  | x :: l' => body x ;; for_ l' body
  end.

(** The integers [start, start + 1, ..., stop - 1]; none when
    [stop <= start]. *)
Definition range_list (start stop : Z) : list Z :=
  map (fun k => start + Z.of_nat k) (seq 0 (Z.to_nat (stop - start))).

(** [range(start, stop)], iterated: anything but an integer as [stop]
    raises [TypeError]. *)
Definition range (start : Z) (stop : value) : py (list Z) :=
  match stop with
  | PyInt n => ret (range_list start n)
  | _ => raise TypeError
  end.

(** The text on standard output and the exit status of a process that runs
    [m]: 0 when the script runs to its end, the code of [sys.exit], 1 after
    an exception. *)
Definition stdout {A} (m : py A) : string := fst (m EmptyString).

Definition outcome {A} (m : py A) : result A := snd (m EmptyString).

Definition exit_status {A} (m : py A) : Z :=
  match outcome m with
  | Value _ => 0
  | SystemExit code => code
  | Raised _ => 1
  end.

(** ** The argument parser

    [argparse.ArgumentParser(description=...)] with the one argument
    [--rows] of [type=int], as [parse_args] of CPython 3.11 handles it.  The
    parser knows the option strings [-h], [--help] (added by default) and
    [--rows]; it has no positional argument. *)

Module argparse.

Inductive Action : Type :=
| HelpAction     (* nargs = 0: prints the help text and exits *)
| StoreRows.     (* nargs = None, type = int, dest = rows *)

Definition option_string_actions : list (string * Action) :=
  [("-h", HelpAction); ("--help", HelpAction); ("--rows", StoreRows)].

Fixpoint lookup (s : string) (l : list (string * Action)) : option Action :=
  match l with
  | [] => None
  | (o, a) :: l' => if String.eqb s o then Some a else lookup s l'
  end.

(** What [_parse_optional] returns for an option. *)
Record option_tuple : Type := {
  action : option Action;
  option_string : string;
  explicit_arg : option string
}.

Inductive parsed : Type :=
| Positional                  (* [None]: meant to be a positional *)
| Optional (t : option_tuple)
| Ambiguous.                  (* [self.error]: ambiguous option *)

(** The namespace [parse_args] fills: [rows] is [None] until the option
    is seen. *)
Record Namespace : Type := { rows : value }.

(** [_get_option_tuples]: the options [arg_string] abbreviates.  It is
    called on strings of two characters or more that start with [-]. *)
Definition get_option_tuples (arg_string : string) : list option_tuple :=
  match arg_string with
  | String "-" (String "-" _) =>
      let (option_prefix, explicit) :=
        if Str.contains "=" arg_string
        then let (p, e) := Str.split1 "=" arg_string in (p, Some e)
        else (arg_string, None) in
      flat_map (fun oa : string * Action =>
          if Str.startswith (fst oa) option_prefix
          then [{| action := Some (snd oa); option_string := fst oa;
                   explicit_arg := explicit |}]
          else [])
        option_string_actions
  | String "-" _ =>
      let short_option_prefix := Str.take 2 arg_string in
      let short_explicit_arg := Str.drop 2 arg_string in
      flat_map (fun oa : string * Action =>
          if String.eqb (fst oa) short_option_prefix
          then [{| action := Some (snd oa); option_string := fst oa;
                   explicit_arg := Some short_explicit_arg |}]
          else if Str.startswith (fst oa) arg_string
          then [{| action := Some (snd oa); option_string := fst oa;
                   explicit_arg := None |}]
          else [])
        option_string_actions
  | _ => []
  end.

(** The text [$] ends a match at: the whole string, or the string without
    its final line feed. *)
Fixpoint chomp (s : string) : string :=
  match s with
  | EmptyString => EmptyString
  | String c t =>
      match t with
      | EmptyString => if Ascii.eqb c Str.LF then EmptyString else s
      | String _ _ => String c (chomp t)
      end
  end.

Definition nonempty (s : string) : bool :=
  match s with EmptyString => false | String _ _ => true end.

(** [_negative_number_matcher], the pattern [^-\d+$|^-\d*\.\d+$]. *)
Definition negative_number (s : string) : bool :=
  match chomp s with
  | String "-" t =>
      (nonempty t && Str.all_digits t)
      || (Str.contains "." t
          && let (i, f) := Str.split1 "." t in
             Str.all_digits i && nonempty f && Str.all_digits f)
  | _ => false
  end.

(** [_parse_optional]. *)
Definition parse_optional (arg_string : string) : parsed :=
  match arg_string with
  | EmptyString => Positional
  | String c _ =>
      if negb (Ascii.eqb c "-") then Positional
      else
        match lookup arg_string option_string_actions with
        | Some a =>
            Optional {| action := Some a; option_string := arg_string;
                        explicit_arg := None |}
        | None =>
            if (String.length arg_string =? 1)%nat then Positional
            else
              let before_eq :=
                if Str.contains "=" arg_string
                then
                  let (o, e) := Str.split1 "=" arg_string in
                  match lookup o option_string_actions with
                  | Some a =>
                      Some {| action := Some a; option_string := o;
                              explicit_arg := Some e |}
                  | None => None
                  end
                else None in
              match before_eq with
              | Some t => Optional t
              | None =>
                  match get_option_tuples arg_string with
                  | _ :: _ :: _ => Ambiguous
                  | [t] => Optional t
                  | [] =>
                      if negative_number arg_string then Positional
                      else if Str.contains " " arg_string then Positional
                      else Optional {| action := None;
                                       option_string := arg_string;
                                       explicit_arg := None |}
                  end
              end
        end
  end.

(** The pattern of an argument string: [A] for an argument, [O] for an
    option, [-] for the separator [--]. *)
Inductive pattern : Type :=
| pA
| pO (t : option_tuple)
| pDash.

(** The first pass of [_parse_known_args]: every argument string with its
    pattern; all strings after [--] are arguments.  [None] when an option
    is ambiguous. *)
Fixpoint arg_strings_pattern (arg_strings : list string)
  : option (list (string * pattern)) :=
  match arg_strings with
  | [] => Some []
  | s :: rest =>
      if String.eqb s "--"
      then Some ((s, pDash) :: map (fun r => (r, pA)) rest)
      else
        match parse_optional s with
        | Ambiguous => None
        | Positional => option_map (cons (s, pA)) (arg_strings_pattern rest)
        | Optional t => option_map (cons (s, pO t)) (arg_strings_pattern rest)
        end
  end.


(** [parser.error(message)]: the usage message goes to the error stream
    and the process exits with status 2. *)
Definition error {A} : py A := sys_exit 2.

(** [_get_value] with [type=int]: the argument string converted by [int];
    a [ValueError] becomes the error "invalid int value". *)
Definition get_value (arg_string : string) : py Z :=
  match builtin_int arg_string with
  | Some n => ret n
  | None => error
  end.

Fixpoint remove_first (x : string) (l : list string) : list string :=
  match l with
  | [] => []
  | y :: l' => if String.eqb y x then l' else y :: remove_first x l'
  end.

Fixpoint get_value_list (arg_strings : list string) : py (list Z) :=
  match arg_strings with
  | [] => ret []
  | s :: l => n <- get_value s ;; ns <- get_value_list l ;; ret (n :: ns)
  end.

(** [_get_values] for [--rows]: the first [--] is stripped from the
    argument strings; a single string left is converted to the value,
    anything else to a list of values. *)
Definition get_values (arg_strings : list string) : py value :=
  match remove_first "--" arg_strings with
  | [arg_string] => n <- get_value arg_string ;; ret (PyInt n)
  | l => ns <- get_value_list l ;; ret (PyList ns)
  end.

(** The single-dash flags packed behind [-h]: each further character has
    to be a flag of its own, and [h] is the only one. *)
Fixpoint only_help_flags (explicit : string) : bool :=
  match explicit with
  | EmptyString => false
  | String c rest =>
      Ascii.eqb c "h"
      && match rest with
         | EmptyString => true
         | String _ _ => only_help_flags rest
         end
  end.

Section Parser.

(** The text of [format_help()]; it depends on the name the program was
    started under and on the width of the terminal. *)
Variable help_text : string.

(** [_HelpAction]: [print_help()], then [parser.exit()]. *)
Definition print_help_and_exit {A} : py A :=
  write help_text ;; sys_exit 0.

(** The second pass of [_parse_known_args]: the options are consumed
    from left to right, each action taken as its option is met;
    strings that belong to no option are collected in [extras]. *)
Fixpoint consume (namespace : Namespace) (extras : list string)
    (args : list (string * pattern)) : py (Namespace * list string) :=
  match args with
  | [] => ret (namespace, extras)
  | (s, pA) :: rest => consume namespace (extras ++ [s]) rest
  | (s, pDash) :: rest => consume namespace (extras ++ [s]) rest
  | (s, pO t) :: rest =>
      match action t with
      | None => consume namespace (extras ++ [s]) rest
      | Some HelpAction =>
          match explicit_arg t with
          | None => print_help_and_exit
          | Some e =>
              if String.eqb (option_string t) "-h" && only_help_flags e
              then print_help_and_exit
              else error          (* ignored explicit argument *)
          end
      | Some StoreRows =>
          match explicit_arg t with
          | Some e =>
              v <- get_values [e] ;;
              consume {| rows := v |} extras rest
          | None =>
              match rest with
              | (a, pA) :: rest' =>
                  v <- get_values [a] ;;
                  consume {| rows := v |} extras rest'
              | _ => error        (* expected one argument *)
              end
          end
      end
  end.

(** [parser.parse_args()] on the argument strings [sys.argv[1:]]. *)
Definition parse_args (argv : list string) : py Namespace :=
  match arg_strings_pattern argv with
  | None => error                 (* ambiguous option *)
  | Some args =>
      r <- consume {| rows := PyNone |} [] args ;;
      match snd r with
      | [] => ret (fst r)
      | _ :: _ => error           (* unrecognized arguments *)
      end
  end.

End Parser.

End argparse.

(** ** The script *)

Section Script.

Variable help_text : string.

(** [generate_big_csv.py], run with the command-line arguments [argv]. *)
Definition generate_big_csv (argv : list string) : py unit :=
  args <- argparse.parse_args help_text argv ;;
  print "type,client,tx,amount" ;;
  r <- range 0 (argparse.rows args) ;;
  for_ r (fun i =>
    let client := i mod 128 in
    print ("deposit," ++ str client ++ "," ++ str i ++ ",1")).

End Script.

(** The line the loop body prints for the index [i]. *)
Definition data_line (i : Z) : string :=
  let client := i mod 128 in
  "deposit," ++ str client ++ "," ++ str i ++ ",1".

(** ** Reading the output

    What a consumer of the file sees: the lines of the text, and the four
    columns of a data line. *)

(** The text that consists of the given lines, each ended by a line
    feed. *)
Fixpoint unlines (ls : list string) : string :=
  match ls with
  | [] => EmptyString
  | l :: ls' => l ++ String Str.LF (unlines ls')
  end.

(** The lines of a text: the pieces between line feeds; a line feed at the
    very end of the text ends the last line and starts no new one. *)
Definition lines (text : string) : list string :=
  let pieces := Str.split Str.LF text in
  if String.eqb (last pieces EmptyString) EmptyString
  then removelast pieces
  else pieces.

(** A string that fits on one line. *)
Definition no_line_feed (l : string) : Prop := Str.contains Str.LF l = false.

(** The lines after the header line. *)
Definition data_lines (text : string) : list string := tl (lines text).

(** A row of the file, by the columns the header names. *)
Record Row : Type := {
  type : string;
  client : Z;
  tx : Z;
  amount : Z
}.

(** A data line read back: four comma-separated fields, the last three of
    them integers. *)
Definition read_row (line : string) : option Row :=
  match Str.split "," line with
  | [f_type; f_client; f_tx; f_amount] =>
      match py_int f_client, py_int f_tx, py_int f_amount with
      | Some c, Some t, Some a =>
          Some {| type := f_type; client := c; tx := t; amount := a |}
      | _, _, _ => None
      end
  | _ => None
  end.

(** [parse_args] returned a namespace whose [rows] is [v]. *)
Definition parses_to (help_text : string) (argv : list string) (v : value)
  : Prop :=
  outcome (argparse.parse_args help_text argv)
  = Value {| argparse.rows := v |}.

(** How a computation of the parser can end, started with [out] on
    standard output: the help text written and exit status 0, or nothing
    written and either exit status 2 or a value. *)
Inductive parser_end {A : Type} (help_text out : string)
  : string * result A -> Prop :=
| end_help : parser_end help_text out (out ++ help_text, SystemExit 0)
| end_error : parser_end help_text out (out, SystemExit 2)
| end_value (a : A) : parser_end help_text out (out, Value a).

(** The characters of the file: the letters of the header line and of
    [deposit], the comma, the decimal digits and the line feed. *)
Definition csv_char (c : ascii) : bool :=
  Str.is_digit c
  || Str.contains c "type,client,tx,amount"
  || Str.contains c "deposit"
  || Ascii.eqb c Str.LF.

(** Whether a line is a data line of the client [c]. *)
Definition client_is (c : Z) (line : string) : bool :=
  match read_row line with
  | Some row => client row =? c
  | None => false
  end.

(** The sum of the amount column over the lines that read as rows. *)
Fixpoint total_amount (data : list string) : Z :=
  match data with
  | [] => 0
  | line :: data' =>
      match read_row line with
      | Some row => amount row + total_amount data'
      | None => total_amount data'
      end
  end.

(** * Properties *)

(** ** Examples *)

Example py_int_plain : py_int "200" = Some 200.
Proof. reflexivity. Qed.

Example py_int_signed : py_int " -5_0 " = Some (-50).
Proof. reflexivity. Qed.

Example py_int_rejects :
  map py_int
    [EmptyString; "-"; "abc"; "1.0"; "1__0"; "_1"; "1_"; "- 5"; "+-1"; "0x10"]
  = [None; None; None; None; None; None; None; None; None; None].
Proof. reflexivity. Qed.

Example str_examples : map str [0; 71; 199; -5] = ["0"; "71"; "199"; "-5"].
Proof. reflexivity. Qed.

Example lines_example :
  lines (unlines ["type,client,tx,amount"; "deposit,0,0,1"])
  = ["type,client,tx,amount"; "deposit,0,0,1"].
Proof. reflexivity. Qed.

Example read_row_example :
  read_row "deposit,71,199,1"
  = Some {| type := "deposit"; client := 71; tx := 199; amount := 1 |}.
Proof. reflexivity. Qed.

(** Some command lines, as the parser of CPython 3.11 treats them. *)
Example parse_args_examples :
  map (fun argv => argparse.parse_args "usage" argv EmptyString)
    [ []; ["--rows"; "5"]; ["--rows=5"]; ["--ro"; "5_0"]; ["--rows"; "-5"];
      ["--rows"; "1"; "--rows"; "2"] ]
  = map (fun v => (EmptyString, Value {| argparse.rows := v |}))
      [ PyNone; PyInt 5; PyInt 5; PyInt 50; PyInt (-5); PyInt 2 ].
Proof. reflexivity. Qed.

Example parse_args_errors :
  map (fun argv => argparse.parse_args "usage" argv EmptyString)
    [ ["--rows"]; ["--rows"; "abc"]; ["--rows="]; ["--rows"; "1.5"];
      ["--rows"; "--"; "5"]; ["5"]; ["--rows"; "5"; "6"]; ["--columns"; "4"];
      ["--=5"]; ["-hx"]; ["--help=x"] ]
  = repeat (EmptyString, SystemExit 2) 11.
Proof. reflexivity. Qed.

Example parse_args_help :
  map (fun argv => argparse.parse_args "usage" argv EmptyString)
    [ ["-h"]; ["--help"]; ["--he"]; ["-hh"]; ["-h"; "--rows"; "abc"];
      ["rows"; "-h"] ]
  = repeat ("usage", SystemExit 0) 6.
Proof. reflexivity. Qed.

(** ** Strings *)

Lemma append_nil_r (s : string) : s ++ EmptyString = s.
Proof. induction s as [|c s IH]; simpl; [reflexivity | now rewrite IH]. Qed.

Lemma append_assoc (s t u : string) : (s ++ t) ++ u = s ++ (t ++ u).
Proof. induction s as [|c s IH]; simpl; [reflexivity | now rewrite IH]. Qed.

Section SplitFacts.

Variable sep : ascii.

Lemma split_not_nil (s : string) : Str.split sep s <> [].
Proof.
  destruct s as [|c t]; simpl; [discriminate|].
  destruct (Ascii.eqb c sep); [discriminate|].
  destruct (Str.split sep t); discriminate.
Qed.

(** A piece without separator, followed by a separator, is the first
    piece of the split. *)
Lemma split_piece (w t : string) :
  Str.contains sep w = false ->
  Str.split sep (w ++ String sep t) = w :: Str.split sep t.
Proof.
  induction w as [|c w IH]; simpl; intros H.
  - now rewrite Ascii.eqb_refl.
  - apply orb_false_iff in H as [Hc Hw].
    rewrite Hc, (IH Hw). reflexivity.
Qed.

Lemma split_last_piece (w : string) :
  Str.contains sep w = false -> Str.split sep w = [w].
Proof.
  induction w as [|c w IH]; simpl; intros H; [reflexivity|].
  apply orb_false_iff in H as [Hc Hw].
  rewrite Hc, (IH Hw). reflexivity.
Qed.

End SplitFacts.

Lemma split_unlines (ls : list string) :
  Forall no_line_feed ls ->
  Str.split Str.LF (unlines ls) = (ls ++ [EmptyString])%list.
Proof.
  induction 1 as [|l ls Hl _ IH]; simpl; [reflexivity|].
  rewrite (split_piece _ _ _ Hl), IH. reflexivity.
Qed.

(** Lines without line feed are read back as they were written. *)
Lemma lines_unlines (ls : list string) :
  Forall no_line_feed ls -> lines (unlines ls) = ls.
Proof.
  intros H. unfold lines. rewrite (split_unlines _ H).
  rewrite last_last, removelast_last. reflexivity.
Qed.

(** ** Decimal text *)

Lemma digit_not_char (c d : ascii) :
  Str.is_digit d = false -> Str.is_digit c = true -> Ascii.eqb c d = false.
Proof.
  intros Hd Hc. destruct (Ascii.eqb_spec c d) as [->|]; [|reflexivity].
  rewrite Hd in Hc. discriminate.
Qed.

Lemma all_digits_contains (c : ascii) (s : string) :
  Str.is_digit c = false -> Str.all_digits s = true ->
  Str.contains c s = false.
Proof.
  intros Hc. induction s as [|d s IH]; simpl; [reflexivity|].
  intros H. apply andb_true_iff in H as [Hd Hs].
  rewrite (digit_not_char _ _ Hc Hd), (IH Hs). reflexivity.
Qed.

Lemma all_digits_string_of_uint (d : Decimal.uint) :
  Str.all_digits (NilEmpty.string_of_uint d) = true.
Proof. induction d; simpl; auto. Qed.

Lemma string_of_uint_not_empty (d : Decimal.uint) :
  d <> Decimal.Nil -> NilEmpty.string_of_uint d <> EmptyString.
Proof. destruct d; simpl; congruence. Qed.

(** The decimal text of a positive number: digits only, at least one. *)
Lemma str_pos (p : positive) :
  str (Z.pos p) = NilEmpty.string_of_uint (Pos.to_uint p).
Proof.
  unfold str. simpl. unfold NilZero.string_of_uint.
  pose proof (DecimalPos.Unsigned.to_uint_nonnil p) as H.
  destruct (Pos.to_uint p); [contradiction | reflexivity ..].
Qed.

Lemma str_neg (p : positive) : str (Z.neg p) = String "-" (str (Z.pos p)).
Proof. rewrite str_pos. unfold str. simpl. unfold NilZero.string_of_uint.
  pose proof (DecimalPos.Unsigned.to_uint_nonnil p) as H.
  destruct (Pos.to_uint p); [contradiction | reflexivity ..].
Qed.

Lemma str_all_digits (n : Z) : 0 <= n -> Str.all_digits (str n) = true.
Proof.
  destruct n as [|p|p]; intros H; [reflexivity | | lia].
  rewrite str_pos. apply all_digits_string_of_uint.
Qed.

Lemma str_not_empty (n : Z) : str n <> EmptyString.
Proof.
  destruct n as [|p|p]; [discriminate | | rewrite str_neg; discriminate].
  rewrite str_pos. apply string_of_uint_not_empty.
  apply DecimalPos.Unsigned.to_uint_nonnil.
Qed.

Lemma digit_not_space (c : ascii) :
  Str.is_digit c = true -> Str.is_space c = false.
Proof.
  unfold Str.is_digit, Str.is_space. intros H.
  apply andb_true_iff in H as [H1 H2].
  apply Nat.leb_le in H1. apply Nat.leb_le in H2.
  apply orb_false_iff. split.
  - apply andb_false_iff. right. apply Nat.leb_gt. lia.
  - apply Nat.eqb_neq. lia.
Qed.

Lemma rstrip_all_digits (s : string) :
  Str.all_digits s = true -> Str.rstrip s = s.
Proof.
  induction s as [|c t IH]; simpl; [reflexivity|].
  intros H. apply andb_true_iff in H as [Hc Ht].
  rewrite (IH Ht), (digit_not_space _ Hc). now destruct t.
Qed.

Lemma strip_all_digits (s : string) :
  Str.all_digits s = true -> Str.strip s = s.
Proof.
  intros H. unfold Str.strip.
  destruct s as [|c t]; [reflexivity|].
  pose proof H as H'. simpl in H'. apply andb_true_iff in H' as [Hc _].
  simpl Str.lstrip. rewrite (digit_not_space _ Hc).
  now apply rstrip_all_digits.
Qed.

Lemma strip_minus_digits (s : string) :
  Str.all_digits s = true -> Str.strip (String "-" s) = String "-" s.
Proof.
  intros H. unfold Str.strip. simpl.
  rewrite (rstrip_all_digits _ H). now destruct s.
Qed.

Lemma well_grouped_all_digits (s : string) :
  Str.all_digits s = true -> well_grouped true s = true.
Proof.
  induction s as [|c t IH]; simpl; [reflexivity|].
  intros H. apply andb_true_iff in H as [Hc Ht]. rewrite Hc. auto.
Qed.

Lemma remove_underscores_all_digits (s : string) :
  Str.all_digits s = true -> remove_underscores s = s.
Proof.
  induction s as [|c t IH]; simpl; [reflexivity|].
  intros H. apply andb_true_iff in H as [Hc Ht].
  rewrite (digit_not_char c "_" eq_refl Hc), (IH Ht). reflexivity.
Qed.

Lemma digits_value_all_digits (s : string) :
  Str.all_digits s = true -> s <> EmptyString ->
  digits_value s = option_map Z.of_uint (NilEmpty.uint_of_string s).
Proof.
  intros H Hne. unfold digits_value.
  rewrite (remove_underscores_all_digits _ H).
  destruct s as [|c t]; [contradiction|].
  simpl in H. apply andb_true_iff in H as [Hc Ht].
  simpl well_grouped. rewrite Hc, (well_grouped_all_digits _ Ht). reflexivity.
Qed.

Lemma digits_value_pos (p : positive) :
  digits_value (str (Z.pos p)) = Some (Z.pos p).
Proof.
  rewrite digits_value_all_digits.
  - rewrite str_pos, NilEmpty.usu. simpl. unfold Z.of_uint.
    now rewrite DecimalPos.Unsigned.of_to.
  - apply str_all_digits. lia.
  - apply str_not_empty.
Qed.

(** Reading a digit string that does not start with a sign. *)
Lemma py_int_all_digits (s : string) :
  Str.all_digits s = true -> py_int s = digits_value s.
Proof.
  intros H. unfold py_int. rewrite (strip_all_digits _ H).
  destruct s as [|c t]; [reflexivity|].
  simpl in H. apply andb_true_iff in H as [Hc _].
  now rewrite (digit_not_char c "-" eq_refl Hc), (digit_not_char c "+" eq_refl Hc).
Qed.

(** [int(str(n)) == n]: the decimal text of an integer reads back as that
    integer. *)
Lemma py_int_str (n : Z) : py_int (str n) = Some n.
Proof.
  destruct n as [|p|p].
  - reflexivity.
  - rewrite py_int_all_digits by (apply str_all_digits; lia).
    apply digits_value_pos.
  - rewrite str_neg. unfold py_int.
    rewrite strip_minus_digits by (apply str_all_digits; lia).
    rewrite Ascii.eqb_refl, digits_value_pos. reflexivity.
Qed.

(** ** Running the loop *)

Lemma for_print {A} (f : A -> string) (l : list A) (out : string) :
  for_ l (fun x => print (f x)) out = (out ++ unlines (map f l), Value tt).
Proof.
  revert out. induction l as [|x l IH]; intros out; simpl.
  - unfold ret. now rewrite append_nil_r.
  - unfold bind, print, write at 1. rewrite IH.
    now rewrite !append_assoc.
Qed.

Lemma range_list_length (n : Z) :
  0 <= n -> Z.of_nat (List.length (range_list 0 n)) = n.
Proof.
  intros H. unfold range_list. rewrite length_map, length_seq. lia.
Qed.

Lemma range_list_empty (n : Z) : n <= 0 -> range_list 0 n = [].
Proof.
  intros H. unfold range_list.
  replace (Z.to_nat (n - 0)) with 0%nat by lia. reflexivity.
Qed.

(** The [k]-th index of [range(0, n)] is [k]. *)
Lemma range_list_nth_error (n : Z) (k : nat) :
  nth_error (range_list 0 n) k
  = if (k <? Z.to_nat n)%nat then Some (Z.of_nat k) else None.
Proof.
  unfold range_list. rewrite nth_error_map, nth_error_seq, Z.sub_0_r.
  now destruct (k <? Z.to_nat n)%nat.
Qed.

Lemma range_list_nth (n : Z) (k : nat) (i : Z) :
  nth_error (range_list 0 n) k = Some i -> i = Z.of_nat k /\ i < n.
Proof.
  rewrite range_list_nth_error.
  destruct (Nat.ltb_spec k (Z.to_nat n)); [|discriminate].
  intros [= <-]. lia.
Qed.

(** ** The parser writes nothing unless it prints the help text *)

Lemma get_values_single (a out : string) :
  argparse.get_values [a] out
  = (out,
     if String.eqb a "--" then Value (PyList [])
     else match builtin_int a with
          | Some n => Value (PyInt n)
          | None => SystemExit 2
          end).
Proof.
  unfold argparse.get_values. cbn [argparse.remove_first].
  destruct (String.eqb a "--"); [reflexivity|].
  unfold bind, argparse.get_value.
  destruct (builtin_int a); reflexivity.
Qed.

Lemma consume_end (help_text : string) (n : nat) :
  forall args, (List.length args <= n)%nat ->
  forall namespace extras out,
    parser_end help_text out
      (argparse.consume help_text namespace extras args out).
Proof.
  assert (Hhelp : forall out,
    @argparse.print_help_and_exit help_text (argparse.Namespace * list string) out
    = (out ++ help_text, SystemExit 0)) by reflexivity.
  induction n as [|n IH]; intros args Hlen namespace extras out.
  - destruct args; [apply end_value | simpl in Hlen; lia].
  - destruct args as [|[s p] rest]; [apply end_value|].
    simpl in Hlen.
    assert (Hrest : (List.length rest <= n)%nat) by lia.
    destruct p as [|t|]; simpl; try (apply IH; exact Hrest).
    destruct (argparse.action t) as [[|]|]; try (apply IH; exact Hrest).
    + destruct (argparse.explicit_arg t) as [e|].
      * destruct (_ && _); [rewrite Hhelp; apply end_help | apply end_error].
      * rewrite Hhelp. apply end_help.
    + destruct (argparse.explicit_arg t) as [e|].
      * unfold bind. rewrite get_values_single.
        destruct (String.eqb e "--"); [apply IH; exact Hrest|].
        destruct (builtin_int e); [apply IH; exact Hrest | apply end_error].
      * destruct rest as [|[a [|t'|]] rest']; try apply end_error.
        simpl in Hrest.
        unfold bind. rewrite get_values_single.
        destruct (String.eqb a "--"); [apply IH; lia|].
        destruct (builtin_int a); [apply IH; lia | apply end_error].
Qed.

Lemma parse_args_end (help_text : string) (argv : list string) (out : string) :
  parser_end help_text out (argparse.parse_args help_text argv out).
Proof.
  unfold argparse.parse_args.
  destruct (argparse.arg_strings_pattern argv) as [args|]; [|apply end_error].
  unfold bind.
  destruct (consume_end help_text _ args (le_n _)
              {| argparse.rows := PyNone |} [] out) as [| |[ns extras]].
  - apply end_help.
  - apply end_error.
  - simpl. destruct extras; [apply end_value | apply end_error].
Qed.

(** A command line that parses leaves standard output empty. *)
Lemma parses_to_run (help_text : string) (argv : list string) (v : value) :
  parses_to help_text argv v ->
  argparse.parse_args help_text argv EmptyString
  = (EmptyString, Value {| argparse.rows := v |}).
Proof.
  unfold parses_to, outcome. intros H.
  destruct (parse_args_end help_text argv EmptyString) as [| |a];
    simpl in H; try discriminate.
  now injection H as ->.
Qed.

(** ** The data lines *)

Lemma contains_app (c : ascii) (s t : string) :
  Str.contains c (s ++ t) = Str.contains c s || Str.contains c t.
Proof.
  induction s as [|d s IH]; simpl; [reflexivity|].
  now rewrite IH, orb_assoc.
Qed.

Lemma data_line_shape (i : Z) :
  data_line i
  = "deposit" ++ String "," (str (i mod 128) ++
      String "," (str i ++ String "," "1")).
Proof. reflexivity. Qed.

Lemma data_line_no_line_feed (i : Z) : 0 <= i -> no_line_feed (data_line i).
Proof.
  intros Hi. unfold no_line_feed, data_line. cbv zeta.
  assert (Hm : 0 <= i mod 128) by (apply Z.mod_pos_bound; lia).
  rewrite !contains_app.
  rewrite (all_digits_contains Str.LF (str (i mod 128)) eq_refl)
    by (now apply str_all_digits).
  rewrite (all_digits_contains Str.LF (str i) eq_refl)
    by (now apply str_all_digits).
  reflexivity.
Qed.

Lemma data_line_fields (i : Z) :
  0 <= i ->
  Str.split "," (data_line i) = ["deposit"; str (i mod 128); str i; "1"].
Proof.
  intros Hi. rewrite data_line_shape.
  assert (Hm : 0 <= i mod 128) by (apply Z.mod_pos_bound; lia).
  rewrite split_piece by reflexivity.
  rewrite split_piece
    by (apply all_digits_contains; [reflexivity | now apply str_all_digits]).
  rewrite split_piece
    by (apply all_digits_contains; [reflexivity | now apply str_all_digits]).
  reflexivity.
Qed.

(** A data line reads back as the row it was printed from. *)
Lemma read_row_data_line (i : Z) :
  0 <= i ->
  read_row (data_line i)
  = Some {| type := "deposit"; client := i mod 128; tx := i; amount := 1 |}.
Proof.
  intros Hi. unfold read_row.
  rewrite (data_line_fields _ Hi), !py_int_str. reflexivity.
Qed.

Lemma data_line_not_header (i : Z) : data_line i <> "type,client,tx,amount".
Proof. rewrite data_line_shape. discriminate. Qed.

Lemma range_list_nonneg (n i : Z) : In i (range_list 0 n) -> 0 <= i < n.
Proof.
  intros H. apply In_nth_error in H as [k Hk].
  apply range_list_nth in Hk. lia.
Qed.

(** ** The runs of the script *)

(** With an integer for [rows], the script prints the header line and the
    data lines of [range(0, rows)], and runs to its end. *)
Lemma run_int (help_text : string) (argv : list string) (n : Z) :
  parses_to help_text argv (PyInt n) ->
  generate_big_csv help_text argv EmptyString
  = (unlines ("type,client,tx,amount" :: map data_line (range_list 0 n)),
     Value tt).
Proof.
  intros H. apply parses_to_run in H.
  unfold generate_big_csv. unfold bind at 1. rewrite H.
  unfold bind at 1. unfold print at 1, write.
  unfold bind at 1. cbn [range argparse.rows ret].
  exact (for_print data_line (range_list 0 n) _).
Qed.

(** With anything else for [rows], the header line is printed before
    [range] raises [TypeError]. *)
Lemma run_not_int (help_text : string) (argv : list string) (v : value) :
  parses_to help_text argv v ->
  (forall n, v <> PyInt n) ->
  generate_big_csv help_text argv EmptyString
  = (unlines ["type,client,tx,amount"], Raised TypeError).
Proof.
  intros H Hv. apply parses_to_run in H.
  unfold generate_big_csv. unfold bind at 1. rewrite H.
  unfold bind at 1. unfold print at 1, write.
  unfold bind at 1.
  destruct v as [|n|l]; [reflexivity | now destruct (Hv n) | reflexivity].
Qed.

(** When the parser exits, so does the script, with nothing more
    written. *)
Lemma run_exit (help_text : string) (argv : list string) (out : string)
    (code : Z) :
  argparse.parse_args help_text argv EmptyString = (out, SystemExit code) ->
  generate_big_csv help_text argv EmptyString = (out, SystemExit code).
Proof.
  intros H. unfold generate_big_csv. unfold bind at 1. now rewrite H.
Qed.

Lemma data_lines_no_line_feed (n : Z) :
  Forall no_line_feed
    ("type,client,tx,amount" :: map data_line (range_list 0 n)).
Proof.
  constructor; [reflexivity|].
  apply Forall_map, Forall_forall. intros i Hi.
  apply data_line_no_line_feed. apply range_list_nonneg in Hi. lia.
Qed.

(** The lines of the output, for an integer [rows]. *)
Lemma run_int_lines (help_text : string) (argv : list string) (n : Z) :
  parses_to help_text argv (PyInt n) ->
  lines (stdout (generate_big_csv help_text argv))
  = "type,client,tx,amount" :: map data_line (range_list 0 n).
Proof.
  intros H. unfold stdout. rewrite (run_int _ _ _ H).
  apply lines_unlines, data_lines_no_line_feed.
Qed.

(** The [k]-th data line is the line printed for the index [k]. *)
Lemma run_int_data_line (help_text : string) (argv : list string) (n : Z)
    (k : nat) (line : string) :
  parses_to help_text argv (PyInt n) ->
  nth_error (data_lines (stdout (generate_big_csv help_text argv))) k
  = Some line ->
  line = data_line (Z.of_nat k) /\ Z.of_nat k < n.
Proof.
  intros H. unfold data_lines. rewrite (run_int_lines _ _ _ H).
  cbn [tl]. rewrite nth_error_map.
  destruct (nth_error (range_list 0 n) k) as [i|] eqn:Hi; [|discriminate].
  apply range_list_nth in Hi as [-> Hlt].
  intros [= <-]. now split.
Qed.

(** The [k]-th data line exists as soon as [k < rows]. *)
Lemma run_int_nth_data_line (help_text : string) (argv : list string)
    (n : Z) (k : nat) :
  parses_to help_text argv (PyInt n) ->
  Z.of_nat k < n ->
  nth_error (data_lines (stdout (generate_big_csv help_text argv))) k
  = Some (data_line (Z.of_nat k)).
Proof.
  intros H Hk. unfold data_lines. rewrite (run_int_lines _ _ _ H).
  cbn [tl]. rewrite nth_error_map, range_list_nth_error.
  destruct (Nat.ltb_spec k (Z.to_nat n)); [reflexivity | lia].
Qed.

(** ** Command lines *)

Lemma builtin_int_some (v : string) (a : Z) :
  builtin_int v = Some a -> py_int v = Some a.
Proof.
  unfold builtin_int.
  now destruct (Str.count_digits v <=? int_max_str_digits).
Qed.

(** [int(str(n)) == n] as long as [n] has no more digits than the
    interpreter converts. *)
Lemma builtin_int_str (n : Z) :
  Str.count_digits (str n) <= int_max_str_digits ->
  builtin_int (str n) = Some n.
Proof.
  intros H. unfold builtin_int.
  apply Z.leb_le in H. rewrite H. apply py_int_str.
Qed.

Lemma pattern_rows_cons (rest : list string) :
  argparse.arg_strings_pattern ("--rows" :: rest)
  = option_map
      (cons ("--rows",
             argparse.pO {| argparse.action := Some argparse.StoreRows;
                            argparse.option_string := "--rows";
                            argparse.explicit_arg := None |}))
      (argparse.arg_strings_pattern rest).
Proof. reflexivity. Qed.

(** [--rows v] with a [v] that [int] rejects is a parser error, however
    [v] itself is classified. *)
Lemma parse_args_rows_rejected (help_text v : string) :
  builtin_int v = None ->
  argparse.parse_args help_text ["--rows"; v] EmptyString
  = (EmptyString, SystemExit 2).
Proof.
  intros Hv. unfold argparse.parse_args. rewrite pattern_rows_cons.
  cbn [argparse.arg_strings_pattern].
  destruct (String.eqb v "--") eqn:Hdash; [reflexivity|].
  destruct (argparse.parse_optional v) as [|t|]; cbn [option_map map].
  - unfold bind. cbn [argparse.consume argparse.action argparse.explicit_arg].
    unfold bind. rewrite get_values_single, Hdash, Hv. reflexivity.
  - reflexivity.
  - reflexivity.
Qed.

Lemma str_not_separator (n : Z) : String.eqb (str n) "--" = false.
Proof.
  apply String.eqb_neq. intros H.
  pose proof (py_int_str n) as Hn. rewrite H in Hn. discriminate.
Qed.

(** Every integer of at most [int_max_str_digits] digits is the value of
    [rows] for some command line: [--rows=n], with [n] in decimal. *)
Lemma rows_option_parses (help_text : string) (n : Z) :
  Str.count_digits (str n) <= int_max_str_digits ->
  parses_to help_text ["--rows=" ++ str n] (PyInt n).
Proof.
  intros Hn. unfold parses_to, outcome, argparse.parse_args.
  cbn [argparse.arg_strings_pattern append String.eqb Ascii.eqb Bool.eqb].
  unfold argparse.parse_optional.
  cbn - [argparse.consume str].
  unfold bind. cbn [argparse.consume argparse.action argparse.explicit_arg].
  unfold bind.
  rewrite get_values_single, str_not_separator, (builtin_int_str _ Hn).
  reflexivity.
Qed.

Lemma parse_optional_all_digits (s : string) :
  Str.all_digits s = true -> argparse.parse_optional s = argparse.Positional.
Proof.
  destruct s as [|c t]; [reflexivity|]. simpl Str.all_digits. intros H.
  apply andb_true_iff in H as [Hc _].
  unfold argparse.parse_optional.
  now rewrite (digit_not_char c "-" eq_refl Hc).
Qed.

(** Every such non-negative integer is also the value of [rows] for the
    command line [--rows n]. *)
Lemma rows_value_parses (help_text : string) (n : Z) :
  0 <= n ->
  Str.count_digits (str n) <= int_max_str_digits ->
  parses_to help_text ["--rows"; str n] (PyInt n).
Proof.
  intros Hn Hd. unfold parses_to, outcome, argparse.parse_args.
  rewrite pattern_rows_cons. cbn [argparse.arg_strings_pattern].
  rewrite str_not_separator.
  rewrite parse_optional_all_digits by (now apply str_all_digits).
  cbn [option_map]. unfold bind.
  cbn [argparse.consume argparse.action argparse.explicit_arg].
  unfold bind.
  rewrite get_values_single, str_not_separator, (builtin_int_str _ Hd).
  reflexivity.
Qed.

(** ** The claims *)

(** C1: for every non-negative [rows], the script writes exactly
    [rows + 1] lines, each ended by a line feed: the header line
    [type,client,tx,amount] first and once, then exactly [rows] data
    lines. *)
Theorem generate_line_count (help_text : string) (argv : list string) (n : Z) :
  parses_to help_text argv (PyInt n) ->
  0 <= n ->
  exists data : list string,
    stdout (generate_big_csv help_text argv)
    = unlines ("type,client,tx,amount" :: data)
    /\ lines (stdout (generate_big_csv help_text argv))
       = "type,client,tx,amount" :: data
    /\ Z.of_nat (List.length (lines (stdout (generate_big_csv help_text argv))))
       = n + 1
    /\ Z.of_nat (List.length data) = n
    /\ Forall (fun l => l <> "type,client,tx,amount" /\ read_row l <> None)
         data.
Proof.
  intros H Hn. exists (map data_line (range_list 0 n)).
  rewrite (run_int_lines _ _ _ H). unfold stdout. rewrite (run_int _ _ _ H).
  cbn [fst List.length]. rewrite length_map.
  pose proof (range_list_length n Hn) as Hlen.
  repeat split; try lia.
  apply Forall_map, Forall_forall. intros i Hi.
  apply range_list_nonneg in Hi. split.
  - apply data_line_not_header.
  - rewrite read_row_data_line by lia. discriminate.
Qed.

Lemma generate_line_count_witness :
  exists data : list string,
    stdout (generate_big_csv "usage" ["--rows"; "3"])
    = unlines ("type,client,tx,amount" :: data)
    /\ lines (stdout (generate_big_csv "usage" ["--rows"; "3"]))
       = "type,client,tx,amount" :: data
    /\ Z.of_nat
         (List.length (lines (stdout (generate_big_csv "usage" ["--rows"; "3"]))))
       = 3 + 1
    /\ Z.of_nat (List.length data) = 3
    /\ Forall (fun l => l <> "type,client,tx,amount" /\ read_row l <> None)
         data.
Proof.
  apply (generate_line_count "usage" ["--rows"; "3"] 3); [reflexivity | lia].
Defined.

(** C3: for every non-negative [rows] and every data line, the client
    field is the tx field modulo 128, and lies between 0 and 127. *)
Theorem client_is_tx_mod_128 (help_text : string) (argv : list string)
    (n : Z) (k : nat) (line : string) :
  parses_to help_text argv (PyInt n) ->
  0 <= n ->
  nth_error (data_lines (stdout (generate_big_csv help_text argv))) k
  = Some line ->
  exists row : Row,
    read_row line = Some row
    /\ client row = tx row mod 128
    /\ 0 <= client row <= 127.
Proof.
  intros H _ Hk.
  apply (run_int_data_line _ _ _ _ _ H) in Hk as [-> _].
  eexists. split; [apply read_row_data_line; lia|].
  cbn [client tx].
  pose proof (Z.mod_pos_bound (Z.of_nat k) 128 ltac:(lia)). split; [reflexivity | lia].
Qed.

Lemma client_is_tx_mod_128_witness :
  exists row : Row,
    read_row "deposit,2,130,1" = Some row
    /\ client row = tx row mod 128
    /\ 0 <= client row <= 127.
Proof.
  apply (client_is_tx_mod_128 "usage" ["--rows"; "131"] 131 130
           "deposit,2,130,1");
    [reflexivity | lia | vm_compute; reflexivity].
Defined.

(** C4: for every non-negative [rows], the tx fields of the data lines,
    read in the order the lines were written, are 0, 1, ..., [rows - 1]:
    for every [k < rows] there is a [k]-th data line (counted from 0), and
    the tx field of the [k]-th data line is [k]; so tx starts at 0,
    increases strictly from one data line to the next, and no two data
    lines share a tx. *)
Theorem tx_is_position (help_text : string) (argv : list string) (n : Z) :
  parses_to help_text argv (PyInt n) ->
  0 <= n ->
  map (fun line => option_map tx (read_row line))
    (data_lines (stdout (generate_big_csv help_text argv)))
  = map Some (range_list 0 n)
  /\ (forall k : nat,
      Z.of_nat k < n ->
      exists (line : string) (row : Row),
        nth_error (data_lines (stdout (generate_big_csv help_text argv))) k
        = Some line
        /\ read_row line = Some row
        /\ tx row = Z.of_nat k)
  /\ (forall (k : nat) (line : string),
      nth_error (data_lines (stdout (generate_big_csv help_text argv))) k
      = Some line ->
      exists row : Row, read_row line = Some row /\ tx row = Z.of_nat k)
  /\ (forall (j k : nat) (lj lk : string) (rj rk : Row),
      nth_error (data_lines (stdout (generate_big_csv help_text argv))) j
      = Some lj ->
      nth_error (data_lines (stdout (generate_big_csv help_text argv))) k
      = Some lk ->
      read_row lj = Some rj ->
      read_row lk = Some rk ->
      ((j < k)%nat -> tx rj < tx rk) /\ (tx rj = tx rk -> j = k)).
Proof.
  intros H _.
  assert (Hpos : forall k line,
    nth_error (data_lines (stdout (generate_big_csv help_text argv))) k
    = Some line ->
    read_row line
    = Some {| type := "deposit"; client := Z.of_nat k mod 128;
              tx := Z.of_nat k; amount := 1 |}).
  { intros k line Hk.
    apply (run_int_data_line _ _ _ _ _ H) in Hk as [-> _].
    apply read_row_data_line. lia. }
  split; [|split; [|split]].
  - unfold data_lines. rewrite (run_int_lines _ _ _ H). cbn [tl].
    rewrite map_map. apply map_ext_in. intros i Hi.
    apply range_list_nonneg in Hi.
    rewrite read_row_data_line by lia. reflexivity.
  - intros k Hk. exists (data_line (Z.of_nat k)). eexists.
    split; [exact (run_int_nth_data_line _ _ _ _ H Hk)|].
    split; [apply read_row_data_line; lia | reflexivity].
  - intros k line Hk. eexists. split; [exact (Hpos _ _ Hk) | reflexivity].
  - intros j k lj lk rj rk Hj Hk Rj Rk.
    rewrite (Hpos _ _ Hj) in Rj. rewrite (Hpos _ _ Hk) in Rk.
    injection Rj as <-. injection Rk as <-. cbn [tx]. lia.
Qed.

Lemma tx_is_position_witness :
  map (fun line => option_map tx (read_row line))
    (data_lines (stdout (generate_big_csv "usage" ["--rows"; "3"])))
  = map Some (range_list 0 3)
  /\ (forall k : nat,
      Z.of_nat k < 3 ->
      exists (line : string) (row : Row),
        nth_error
          (data_lines (stdout (generate_big_csv "usage" ["--rows"; "3"]))) k
        = Some line
        /\ read_row line = Some row
        /\ tx row = Z.of_nat k)
  /\ (forall (k : nat) (line : string),
      nth_error (data_lines (stdout (generate_big_csv "usage" ["--rows"; "3"]))) k
      = Some line ->
      exists row : Row, read_row line = Some row /\ tx row = Z.of_nat k)
  /\ (forall (j k : nat) (lj lk : string) (rj rk : Row),
      nth_error (data_lines (stdout (generate_big_csv "usage" ["--rows"; "3"]))) j
      = Some lj ->
      nth_error (data_lines (stdout (generate_big_csv "usage" ["--rows"; "3"]))) k
      = Some lk ->
      read_row lj = Some rj ->
      read_row lk = Some rk ->
      ((j < k)%nat -> tx rj < tx rk) /\ (tx rj = tx rk -> j = k)).
Proof.
  apply (tx_is_position "usage" ["--rows"; "3"] 3); [reflexivity | lia].
Defined.

(** C5: for every non-negative [rows], every data line is exactly
    [deposit,<client>,<row_index>,1]: its type field is the text [deposit],
    its amount field the text [1], which reads as the integer 1. *)
Theorem data_line_form (help_text : string) (argv : list string) (n : Z)
    (k : nat) (line : string) :
  parses_to help_text argv (PyInt n) ->
  0 <= n ->
  nth_error (data_lines (stdout (generate_big_csv help_text argv))) k
  = Some line ->
  line = "deposit," ++ str (Z.of_nat k mod 128) ++ "," ++ str (Z.of_nat k)
         ++ ",1"
  /\ Str.split "," line
     = ["deposit"; str (Z.of_nat k mod 128); str (Z.of_nat k); "1"]
  /\ exists row : Row,
       read_row line = Some row /\ type row = "deposit" /\ amount row = 1.
Proof.
  intros H _ Hk.
  apply (run_int_data_line _ _ _ _ _ H) in Hk as [-> _].
  split; [reflexivity|]. split; [apply data_line_fields; lia|].
  eexists. split; [apply read_row_data_line; lia|]. now split.
Qed.

Lemma data_line_form_witness :
  "deposit,2,130,1"
  = "deposit," ++ str (Z.of_nat 130 mod 128) ++ "," ++ str (Z.of_nat 130)
    ++ ",1"
  /\ Str.split "," "deposit,2,130,1"
     = ["deposit"; str (Z.of_nat 130 mod 128); str (Z.of_nat 130); "1"]
  /\ exists row : Row,
       read_row "deposit,2,130,1" = Some row
       /\ type row = "deposit" /\ amount row = 1.
Proof.
  apply (data_line_form "usage" ["--rows=131"] 131 130 "deposit,2,130,1");
    [reflexivity | lia | vm_compute; reflexivity].
Defined.

(** C6: for every negative [rows], the script writes the header line and
    no data line, and ends normally, with exit status 0. *)
Theorem negative_rows_header_only (help_text : string) (argv : list string)
    (n : Z) :
  parses_to help_text argv (PyInt n) ->
  n < 0 ->
  stdout (generate_big_csv help_text argv) = unlines ["type,client,tx,amount"]
  /\ lines (stdout (generate_big_csv help_text argv))
     = ["type,client,tx,amount"]
  /\ data_lines (stdout (generate_big_csv help_text argv)) = []
  /\ outcome (generate_big_csv help_text argv) = Value tt
  /\ exit_status (generate_big_csv help_text argv) = 0.
Proof.
  intros H Hn. unfold data_lines, exit_status, outcome, stdout.
  rewrite (run_int _ _ _ H), (range_list_empty n) by lia.
  repeat split.
Qed.

Lemma negative_rows_header_only_witness :
  stdout (generate_big_csv "usage" ["--rows"; "-5"])
  = unlines ["type,client,tx,amount"]
  /\ lines (stdout (generate_big_csv "usage" ["--rows"; "-5"]))
     = ["type,client,tx,amount"]
  /\ data_lines (stdout (generate_big_csv "usage" ["--rows"; "-5"])) = []
  /\ outcome (generate_big_csv "usage" ["--rows"; "-5"]) = Value tt
  /\ exit_status (generate_big_csv "usage" ["--rows"; "-5"]) = 0.
Proof.
  apply (negative_rows_header_only "usage" ["--rows"; "-5"] (-5));
    [reflexivity | lia].
Defined.

(** C7: two runs whose [rows] is the same value write the same bytes and
    end the same way, whatever the command lines that gave that value and
    whatever the help text of the parser: the output is a function of
    [rows] alone.  (One command line run twice gives one result: the
    script reads nothing but its arguments.) *)
Theorem output_depends_on_rows_only (help1 help2 : string)
    (argv1 argv2 : list string) (v : value) :
  parses_to help1 argv1 v ->
  parses_to help2 argv2 v ->
  stdout (generate_big_csv help1 argv1) = stdout (generate_big_csv help2 argv2)
  /\ outcome (generate_big_csv help1 argv1)
     = outcome (generate_big_csv help2 argv2).
Proof.
  intros H1 H2. unfold stdout, outcome.
  destruct v as [|n|l].
  - rewrite (run_not_int _ _ _ H1), (run_not_int _ _ _ H2) by discriminate.
    now split.
  - rewrite (run_int _ _ _ H1), (run_int _ _ _ H2). now split.
  - rewrite (run_not_int _ _ _ H1), (run_not_int _ _ _ H2) by discriminate.
    now split.
Qed.

Lemma output_depends_on_rows_only_witness :
  stdout (generate_big_csv "usage: a" ["--rows"; "3"])
  = stdout (generate_big_csv "usage: b" ["--ro=0_3"])
  /\ outcome (generate_big_csv "usage: a" ["--rows"; "3"])
     = outcome (generate_big_csv "usage: b" ["--ro=0_3"]).
Proof.
  apply (output_depends_on_rows_only "usage: a" "usage: b"
           ["--rows"; "3"] ["--ro=0_3"] (PyInt 3)); reflexivity.
Defined.

(** C8: with [rows] 0 the output is the header line alone; with [rows] 1
    it is the header line and [deposit,0,0,1]; with [rows] 200 its last
    line is [deposit,71,199,1]. *)
Theorem boundary_outputs (help_text : string) (argv0 argv1 argv200 : list string) :
  parses_to help_text argv0 (PyInt 0) ->
  parses_to help_text argv1 (PyInt 1) ->
  parses_to help_text argv200 (PyInt 200) ->
  (stdout (generate_big_csv help_text argv0) = unlines ["type,client,tx,amount"]
   /\ lines (stdout (generate_big_csv help_text argv0))
      = ["type,client,tx,amount"])
  /\ (stdout (generate_big_csv help_text argv1)
      = unlines ["type,client,tx,amount"; "deposit,0,0,1"]
      /\ lines (stdout (generate_big_csv help_text argv1))
         = ["type,client,tx,amount"; "deposit,0,0,1"])
  /\ last (lines (stdout (generate_big_csv help_text argv200))) EmptyString
     = "deposit,71,199,1".
Proof.
  intros H0 H1 H200.
  rewrite (run_int_lines _ _ _ H0), (run_int_lines _ _ _ H1),
    (run_int_lines _ _ _ H200).
  unfold stdout. rewrite (run_int _ _ _ H0), (run_int _ _ _ H1).
  repeat split.
Qed.

Lemma boundary_outputs_witness :
  (stdout (generate_big_csv "usage" ["--rows"; "0"])
   = unlines ["type,client,tx,amount"]
   /\ lines (stdout (generate_big_csv "usage" ["--rows"; "0"]))
      = ["type,client,tx,amount"])
  /\ (stdout (generate_big_csv "usage" ["--rows"; "1"])
      = unlines ["type,client,tx,amount"; "deposit,0,0,1"]
      /\ lines (stdout (generate_big_csv "usage" ["--rows"; "1"]))
         = ["type,client,tx,amount"; "deposit,0,0,1"])
  /\ last (lines (stdout (generate_big_csv "usage" ["--rows"; "200"]))) EmptyString
     = "deposit,71,199,1".
Proof.
  apply (boundary_outputs "usage" ["--rows"; "0"] ["--rows"; "1"]
           ["--rows"; "200"]); reflexivity.
Defined.

(** C9: [--rows] is optional and has no default: with no argument at all,
    parsing succeeds with [rows = None]; the script then prints the header
    line, and only after that fails, in the [TypeError] that [range]
    raises. *)
Theorem missing_rows_prints_header_then_fails (help_text : string) :
  argparse.parse_args help_text [] EmptyString
  = (EmptyString, Value {| argparse.rows := PyNone |})
  /\ (forall out : string,
       generate_big_csv help_text [] out
       = (print "type,client,tx,amount" ;; raise TypeError) out)
  /\ stdout (generate_big_csv help_text []) = unlines ["type,client,tx,amount"]
  /\ outcome (generate_big_csv help_text []) = Raised TypeError
  /\ exit_status (generate_big_csv help_text []) = 1.
Proof. repeat split. Qed.

(** C10: the client values repeat with period 128: for every non-negative
    [rows], the data lines at the positions [i] and [i + 128] have the same
    client field. *)
Theorem client_period_128 (help_text : string) (argv : list string) (n : Z)
    (i : nat) (li lj : string) :
  parses_to help_text argv (PyInt n) ->
  0 <= n ->
  nth_error (data_lines (stdout (generate_big_csv help_text argv))) i
  = Some li ->
  nth_error (data_lines (stdout (generate_big_csv help_text argv))) (i + 128)
  = Some lj ->
  exists ri rj : Row,
    read_row li = Some ri /\ read_row lj = Some rj /\ client ri = client rj.
Proof.
  intros H _ Hi Hj.
  apply (run_int_data_line _ _ _ _ _ H) in Hi as [-> _].
  apply (run_int_data_line _ _ _ _ _ H) in Hj as [-> _].
  do 2 eexists.
  split; [apply read_row_data_line; lia|].
  split; [apply read_row_data_line; lia|].
  cbn [client].
  replace (Z.of_nat (i + 128)) with (Z.of_nat i + 1 * 128) by lia.
  now rewrite Z_mod_plus_full.
Qed.

Lemma client_period_128_witness :
  exists ri rj : Row,
    read_row "deposit,2,2,1" = Some ri
    /\ read_row "deposit,2,130,1" = Some rj
    /\ client ri = client rj.
Proof.
  apply (client_period_128 "usage" ["--rows"; "131"] 131 2
           "deposit,2,2,1" "deposit,2,130,1");
    [reflexivity | lia | vm_compute; reflexivity | vm_compute; reflexivity].
Defined.

(** C2: the code breaks the claim where [--rows] is absent.  With no
    argument at all the run does end with a non-zero status, 1, but only
    after the header line has been written to standard output; the
    neighbouring error paths, [--rows] without a value and [--rows abc],
    end in the parser with status 2 and nothing written, as the claim
    asks. *)
Theorem missing_rows_fails_after_output (help_text : string) :
  (stdout (generate_big_csv help_text []) = unlines ["type,client,tx,amount"]
   /\ stdout (generate_big_csv help_text []) <> EmptyString
   /\ outcome (generate_big_csv help_text []) = Raised TypeError
   /\ exit_status (generate_big_csv help_text []) = 1)
  /\ (stdout (generate_big_csv help_text ["--rows"]) = EmptyString
      /\ exit_status (generate_big_csv help_text ["--rows"]) = 2)
  /\ (stdout (generate_big_csv help_text ["--rows"; "abc"]) = EmptyString
      /\ exit_status (generate_big_csv help_text ["--rows"; "abc"]) = 2).
Proof.
  repeat split. discriminate.
Qed.

(** ** Further properties of the script *)

Lemma unlines_app (l1 l2 : list string) :
  unlines (l1 ++ l2)%list = unlines l1 ++ unlines l2.
Proof.
  induction l1 as [|l l1 IH]; simpl; [reflexivity|].
  now rewrite IH, append_assoc.
Qed.

(** [range(0, m)] starts with [range(0, n)] when [n <= m]. *)
Lemma range_list_split (n m : Z) :
  n <= m ->
  range_list 0 m
  = (range_list 0 n
     ++ map Z.of_nat (seq (Z.to_nat n) (Z.to_nat m - Z.to_nat n)))%list.
Proof.
  intros H. unfold range_list. rewrite !Z.sub_0_r.
  replace (Z.to_nat m) with (Z.to_nat n + (Z.to_nat m - Z.to_nat n))%nat
    at 1 by lia.
  rewrite seq_app, map_app. reflexivity.
Qed.

(** X1: on a standard output that accepts every write, a run ends in one
    of four ways: the help text is printed and the exit status is 0;
    nothing is printed and the exit status is 2; the header line and the
    data lines of [range(0, rows)] are printed and the script runs to its
    end; or the header line alone is printed and [TypeError] is raised.
    (A run whose output stream breaks ends in [OSError] instead; that is
    outside the model.) *)
Theorem run_outcomes (help_text : string) (argv : list string) :
  (stdout (generate_big_csv help_text argv) = help_text
   /\ outcome (generate_big_csv help_text argv) = SystemExit 0)
  \/ (stdout (generate_big_csv help_text argv) = EmptyString
      /\ outcome (generate_big_csv help_text argv) = SystemExit 2)
  \/ (exists n : Z,
        parses_to help_text argv (PyInt n)
        /\ stdout (generate_big_csv help_text argv)
           = unlines ("type,client,tx,amount"
                      :: map data_line (range_list 0 n))
        /\ outcome (generate_big_csv help_text argv) = Value tt)
  \/ (stdout (generate_big_csv help_text argv)
      = unlines ["type,client,tx,amount"]
      /\ outcome (generate_big_csv help_text argv) = Raised TypeError).
Proof.
  pose proof (parse_args_end help_text argv EmptyString) as E.
  inversion E as [Heq | Heq | a Heq]; symmetry in Heq.
  - left. unfold stdout, outcome.
    rewrite (run_exit _ _ _ _ Heq). now split.
  - right. left. unfold stdout, outcome.
    rewrite (run_exit _ _ _ _ Heq). now split.
  - destruct a as [v].
    assert (Hv : parses_to help_text argv v)
      by (unfold parses_to, outcome; now rewrite Heq).
    destruct v as [|n|l].
    + do 3 right. unfold stdout, outcome.
      rewrite (run_not_int _ _ _ Hv) by discriminate. now split.
    + right. right. left. exists n. unfold stdout, outcome.
      rewrite (run_int _ _ _ Hv). now repeat split.
    + do 3 right. unfold stdout, outcome.
      rewrite (run_not_int _ _ _ Hv) by discriminate. now split.
Qed.

(** X2: on a standard output that accepts every write, a run that ends
    with a non-zero exit status has written no data line: its status is 2
    with nothing on standard output, or 1 with the header line alone. *)
Theorem failed_run_writes_no_data (help_text : string) (argv : list string) :
  exit_status (generate_big_csv help_text argv) <> 0 ->
  data_lines (stdout (generate_big_csv help_text argv)) = []
  /\ ((exit_status (generate_big_csv help_text argv) = 2
       /\ stdout (generate_big_csv help_text argv) = EmptyString)
      \/ (exit_status (generate_big_csv help_text argv) = 1
          /\ stdout (generate_big_csv help_text argv)
             = unlines ["type,client,tx,amount"])).
Proof.
  pose proof (parse_args_end help_text argv EmptyString) as E.
  unfold exit_status, outcome, stdout.
  inversion E as [Heq | Heq | a Heq]; symmetry in Heq.
  - rewrite (run_exit _ _ _ _ Heq). cbn. congruence.
  - rewrite (run_exit _ _ _ _ Heq). cbn. intros _. split; [reflexivity|].
    left. now split.
  - destruct a as [v].
    assert (Hv : parses_to help_text argv v)
      by (unfold parses_to, outcome; now rewrite Heq).
    destruct v as [|n|l].
    + rewrite (run_not_int _ _ _ Hv) by discriminate. cbn [fst snd].
      intros _. split; [reflexivity|]. right. now split.
    + rewrite (run_int _ _ _ Hv). cbn [fst snd]. congruence.
    + rewrite (run_not_int _ _ _ Hv) by discriminate. cbn [fst snd].
      intros _. split; [reflexivity|]. right. now split.
Qed.

Lemma failed_run_writes_no_data_witness :
  data_lines (stdout (generate_big_csv "usage" ["--rows"; "ten"])) = []
  /\ ((exit_status (generate_big_csv "usage" ["--rows"; "ten"]) = 2
       /\ stdout (generate_big_csv "usage" ["--rows"; "ten"]) = EmptyString)
      \/ (exit_status (generate_big_csv "usage" ["--rows"; "ten"]) = 1
          /\ stdout (generate_big_csv "usage" ["--rows"; "ten"])
             = unlines ["type,client,tx,amount"])).
Proof.
  apply (failed_run_writes_no_data "usage" ["--rows"; "ten"]).
  vm_compute. discriminate.
Defined.

(** X3: the output grows with [rows]: when [n <= m], the output for [m]
    is the output for [n] followed by further data lines, as many as
    [max(m, 0) - max(n, 0)]. *)
Theorem output_grows_with_rows (help1 help2 : string)
    (argv1 argv2 : list string) (n m : Z) :
  parses_to help1 argv1 (PyInt n) ->
  parses_to help2 argv2 (PyInt m) ->
  n <= m ->
  exists more : list string,
    stdout (generate_big_csv help2 argv2)
    = stdout (generate_big_csv help1 argv1) ++ unlines more
    /\ lines (stdout (generate_big_csv help2 argv2))
       = (lines (stdout (generate_big_csv help1 argv1)) ++ more)%list
    /\ Z.of_nat (List.length more) = Z.max m 0 - Z.max n 0.
Proof.
  intros H1 H2 Hle.
  exists (map data_line
            (map Z.of_nat (seq (Z.to_nat n) (Z.to_nat m - Z.to_nat n)))).
  rewrite (run_int_lines _ _ _ H1), (run_int_lines _ _ _ H2).
  unfold stdout. rewrite (run_int _ _ _ H1), (run_int _ _ _ H2).
  cbn [fst]. rewrite (range_list_split n m Hle), map_app.
  repeat split.
  - change ("type,client,tx,amount" :: ?l)%list
      with (["type,client,tx,amount"] ++ l)%list.
    rewrite !unlines_app, !append_assoc. reflexivity.
  - rewrite !length_map, length_seq. lia.
Qed.

Lemma output_grows_with_rows_witness :
  exists more : list string,
    stdout (generate_big_csv "usage" ["--rows"; "5"])
    = stdout (generate_big_csv "usage" ["--rows=-2"]) ++ unlines more
    /\ lines (stdout (generate_big_csv "usage" ["--rows"; "5"]))
       = (lines (stdout (generate_big_csv "usage" ["--rows=-2"])) ++ more)%list
    /\ Z.of_nat (List.length more) = Z.max 5 0 - Z.max (-2) 0.
Proof.
  apply (output_grows_with_rows "usage" "usage" ["--rows=-2"] ["--rows"; "5"]
           (-2) 5); [reflexivity | reflexivity | lia].
Defined.

(** X4: the client field equals the tx field on the first 128 data lines
    and on no later one; the client is 0 on the data lines whose position
    is a multiple of 128, and on no other. *)
Theorem client_equals_tx_iff (help_text : string) (argv : list string)
    (n : Z) (k : nat) (line : string) (row : Row) :
  parses_to help_text argv (PyInt n) ->
  nth_error (data_lines (stdout (generate_big_csv help_text argv))) k
  = Some line ->
  read_row line = Some row ->
  (client row = tx row <-> (k < 128)%nat)
  /\ (client row = 0 <-> exists q : nat, k = (128 * q)%nat).
Proof.
  intros H Hk Hrow.
  apply (run_int_data_line _ _ _ _ _ H) in Hk as [-> _].
  rewrite read_row_data_line in Hrow by lia.
  injection Hrow as <-. cbn [client tx].
  pose proof (Z.mod_pos_bound (Z.of_nat k) 128 ltac:(lia)) as Hb.
  split; split.
  - intros Heq. lia.
  - intros Hlt. apply Z.mod_small. lia.
  - intros H0. exists (Z.to_nat (Z.of_nat k / 128)).
    pose proof (Z.div_mod (Z.of_nat k) 128 ltac:(lia)) as Hd.
    assert (0 <= Z.of_nat k / 128) by (apply Z.div_pos; lia).
    lia.
  - intros [q ->].
    replace (Z.of_nat (128 * q)) with (Z.of_nat q * 128) by lia.
    apply Z.mod_mul. lia.
Qed.

Lemma client_equals_tx_iff_witness :
  (client {| type := "deposit"; client := 0; tx := 128; amount := 1 |}
   = tx {| type := "deposit"; client := 0; tx := 128; amount := 1 |}
   <-> (128 < 128)%nat)
  /\ (client {| type := "deposit"; client := 0; tx := 128; amount := 1 |} = 0
      <-> exists q : nat, 128%nat = (128 * q)%nat).
Proof.
  apply (client_equals_tx_iff "usage" ["--rows"; "129"] 129 128
           "deposit,0,128,1");
    [reflexivity | vm_compute; reflexivity | reflexivity].
Defined.

(** X5: the clients that occur in the file are exactly the integers from 0
    up to [min(rows, 128) - 1]: with 128 rows or more, every client of
    0..127 has a data line. *)
Theorem clients_used (help_text : string) (argv : list string) (n c : Z) :
  parses_to help_text argv (PyInt n) ->
  (exists (k : nat) (line : string) (row : Row),
      nth_error (data_lines (stdout (generate_big_csv help_text argv))) k
      = Some line
      /\ read_row line = Some row
      /\ client row = c)
  <-> 0 <= c < Z.min n 128.
Proof.
  intros H. split.
  - intros (k & line & row & Hk & Hrow & <-).
    apply (run_int_data_line _ _ _ _ _ H) in Hk as [-> Hlt].
    rewrite read_row_data_line in Hrow by lia.
    injection Hrow as <-. cbn [client].
    pose proof (Z.mod_pos_bound (Z.of_nat k) 128 ltac:(lia)) as Hb.
    pose proof (Z.mod_le (Z.of_nat k) 128 ltac:(lia) ltac:(lia)) as Hle.
    lia.
  - intros Hc. exists (Z.to_nat c), (data_line c).
    eexists. split; [|split].
    + rewrite <- (Z2Nat.id c) at 2 by lia.
      apply (run_int_nth_data_line _ _ _ _ H). lia.
    + apply read_row_data_line. lia.
    + cbn [client]. apply Z.mod_small. lia.
Qed.

Lemma clients_used_witness :
  (exists (k : nat) (line : string) (row : Row),
      nth_error
        (data_lines (stdout (generate_big_csv "usage" ["--rows"; "200"]))) k
      = Some line
      /\ read_row line = Some row
      /\ client row = 127)
  <-> 0 <= 127 < Z.min 200 128.
Proof.
  apply (clients_used "usage" ["--rows"; "200"] 200 127). reflexivity.
Defined.

Lemma client_is_data_line (c i : Z) :
  0 <= i -> client_is c (data_line i) = (i mod 128 =? c).
Proof.
  intros Hi. unfold client_is. now rewrite read_row_data_line.
Qed.

Lemma filter_map_swap {A B} (f : B -> bool) (g : A -> B) (l : list A) :
  filter f (map g l) = map g (filter (fun x => f (g x)) l).
Proof.
  induction l as [|x l IH]; simpl; [reflexivity|].
  destruct (f (g x)); simpl; now rewrite IH.
Qed.

(** The indices below [N] that are congruent to [c] modulo 128. *)
Lemma count_congruent (c : Z) (N : nat) :
  0 <= c < 128 ->
  Z.of_nat
    (List.length
       (filter (fun i => i mod 128 =? c) (map Z.of_nat (seq 0 N))))
  = (Z.of_nat N + 127 - c) / 128.
Proof.
  intros Hc. induction N as [|N IH].
  - cbn [seq map filter List.length]. Z.div_mod_to_equations. lia.
  - rewrite seq_S, map_app, filter_app, length_app, Nat2Z.inj_add, IH.
    cbn [map filter Nat.add].
    destruct (Z.eqb_spec (Z.of_nat N mod 128) c) as [He|He]; cbn [List.length];
      Z.div_mod_to_equations; lia.
Qed.

(** X6: the rows are dealt to the clients in turn: for [rows >= 0], the
    client [c] of 0..127 has [(rows + 127 - c) / 128] data lines (integer
    division). *)
Theorem rows_per_client (help_text : string) (argv : list string) (n c : Z) :
  parses_to help_text argv (PyInt n) ->
  0 <= n ->
  0 <= c < 128 ->
  Z.of_nat
    (List.length
       (filter (client_is c)
          (data_lines (stdout (generate_big_csv help_text argv)))))
  = (n + 127 - c) / 128.
Proof.
  intros H Hn Hc. unfold data_lines. rewrite (run_int_lines _ _ _ H).
  cbn [tl]. rewrite filter_map_swap, length_map.
  rewrite (filter_ext_in _ (fun i => i mod 128 =? c)).
  - unfold range_list. rewrite Z.sub_0_r.
    rewrite (map_ext _ Z.of_nat) by reflexivity.
    rewrite (count_congruent c _ Hc). now rewrite Z2Nat.id.
  - intros i Hi. apply range_list_nonneg in Hi.
    apply client_is_data_line. lia.
Qed.

Lemma rows_per_client_witness :
  Z.of_nat
    (List.length
       (filter (client_is 71)
          (data_lines (stdout (generate_big_csv "usage" ["--rows"; "200"])))))
  = (200 + 127 - 71) / 128.
Proof.
  apply (rows_per_client "usage" ["--rows"; "200"] 200 71);
    [reflexivity | lia | lia].
Defined.

Lemma total_amount_data_lines (l : list Z) :
  Forall (fun i => 0 <= i) l ->
  total_amount (map data_line l) = Z.of_nat (List.length l).
Proof.
  induction 1 as [|i l Hi _ IH]; [reflexivity|].
  cbn [map total_amount List.length].
  rewrite (read_row_data_line _ Hi), IH. cbn [amount]. lia.
Qed.

(** X7: the amounts of the file add up to the number of rows: the sum of
    the amount column is [max(rows, 0)]. *)
Theorem total_amount_is_rows (help_text : string) (argv : list string)
    (n : Z) :
  parses_to help_text argv (PyInt n) ->
  total_amount (data_lines (stdout (generate_big_csv help_text argv)))
  = Z.max n 0.
Proof.
  intros H. unfold data_lines. rewrite (run_int_lines _ _ _ H). cbn [tl].
  rewrite total_amount_data_lines.
  - unfold range_list. rewrite length_map, length_seq. lia.
  - apply Forall_forall. intros i Hi. apply range_list_nonneg in Hi. lia.
Qed.

Lemma total_amount_is_rows_witness :
  total_amount (data_lines (stdout (generate_big_csv "usage" ["--rows=7"])))
  = Z.max 7 0.
Proof.
  apply (total_amount_is_rows "usage" ["--rows=7"] 7). reflexivity.
Defined.

Ltac literal_char H :=
  cbn [Str.contains] in H;
  repeat (apply orb_true_iff in H as [H|H];
          [apply Ascii.eqb_eq in H; subst; reflexivity|]);
  discriminate H.

Lemma all_digits_char (c : ascii) (s : string) :
  Str.all_digits s = true -> Str.contains c s = true -> Str.is_digit c = true.
Proof.
  induction s as [|d s IH]; simpl; [discriminate|].
  intros Hd H. apply andb_true_iff in Hd as [Hd Hs].
  apply orb_true_iff in H as [H|H]; [|now apply IH].
  apply Ascii.eqb_eq in H. now subst.
Qed.

Lemma digit_csv_char (c : ascii) : Str.is_digit c = true -> csv_char c = true.
Proof. intros H. unfold csv_char. now rewrite H. Qed.

Lemma data_line_chars (i : Z) (c : ascii) :
  0 <= i -> Str.contains c (data_line i) = true -> csv_char c = true.
Proof.
  intros Hi. unfold data_line. cbv zeta.
  assert (Hm : 0 <= i mod 128) by (apply Z.mod_pos_bound; lia).
  rewrite !contains_app. intros H.
  apply orb_true_iff in H as [H|H]; [literal_char H|].
  apply orb_true_iff in H as [H|H].
  { apply digit_csv_char, (all_digits_char _ _ (str_all_digits _ Hm) H). }
  apply orb_true_iff in H as [H|H]; [literal_char H|].
  apply orb_true_iff in H as [H|H]; [|literal_char H].
  apply digit_csv_char, (all_digits_char _ _ (str_all_digits _ Hi) H).
Qed.

Lemma unlines_chars (ls : list string) (c : ascii) :
  Forall (fun l => Str.contains c l = true -> csv_char c = true) ls ->
  Str.contains c (unlines ls) = true -> csv_char c = true.
Proof.
  induction 1 as [|l ls Hl _ IH]; [discriminate|].
  cbn [unlines]. rewrite contains_app. cbn [Str.contains]. intros H.
  apply orb_true_iff in H as [H|H]; [now apply Hl|].
  apply orb_true_iff in H as [H|H]; [|now apply IH].
  apply Ascii.eqb_eq in H. now subst.
Qed.

(** X8: whatever [rows] is, a run that gets past the parser writes only
    characters of the file format: lower-case letters of the header line and
    of [deposit], commas, decimal digits and line feeds; so no quote, no
    blank, no carriage return and no sign. *)
Theorem output_alphabet (help_text : string) (argv : list string) (v : value)
    (c : ascii) :
  parses_to help_text argv v ->
  Str.contains c (stdout (generate_big_csv help_text argv)) = true ->
  csv_char c = true.
Proof.
  intros H.
  assert (Hh : Str.contains c "type,client,tx,amount" = true ->
               csv_char c = true)
    by (intros Hc; unfold csv_char; rewrite Hc; now rewrite orb_true_r).
  unfold stdout. destruct v as [|n|l].
  - rewrite (run_not_int _ _ _ H) by discriminate. cbn [fst].
    apply unlines_chars. now repeat constructor.
  - rewrite (run_int _ _ _ H). cbn [fst].
    apply unlines_chars. constructor; [exact Hh|].
    apply Forall_map, Forall_forall. intros i Hi.
    apply range_list_nonneg in Hi. apply data_line_chars. lia.
  - rewrite (run_not_int _ _ _ H) by discriminate. cbn [fst].
    apply unlines_chars. now repeat constructor.
Qed.

Lemma output_alphabet_witness : csv_char "9" = true.
Proof.
  apply (output_alphabet "usage" ["--rows"; "10"] (PyInt 10) "9");
    reflexivity.
Defined.

Example csv_char_excluded :
  map csv_char ["'"%char; " "%char; "-"%char; "+"%char; "013"%char; "_"%char]
  = [false; false; false; false; false; false].
Proof. reflexivity. Qed.

(** ** Further properties of the command line *)

Lemma pattern_rows_eq (v : string) (rest : list string) :
  argparse.arg_strings_pattern (("--rows=" ++ v) :: rest)
  = option_map
      (cons ("--rows=" ++ v,
             argparse.pO {| argparse.action := Some argparse.StoreRows;
                            argparse.option_string := "--rows";
                            argparse.explicit_arg := Some v |}))
      (argparse.arg_strings_pattern rest).
Proof. reflexivity. Qed.

Lemma builtin_int_not_separator (v : string) (a : Z) :
  builtin_int v = Some a -> String.eqb v "--" = false.
Proof.
  intros H. apply String.eqb_neq. intros ->. discriminate H.
Qed.

(** A run of [--rows=v] options with integer values: the namespace ends
    with the last value, whatever it held before. *)
Lemma consume_rows_eq (help_text : string) (ws : list string) :
  Forall (fun w => builtin_int w <> None) ws ->
  forall (rest : list (string * argparse.pattern))
         (namespace : argparse.Namespace) (extras : list string)
         (out : string),
    argparse.consume help_text namespace extras
      (List.app
         (map (fun w =>
                 ("--rows=" ++ w,
                  argparse.pO {| argparse.action := Some argparse.StoreRows;
                                 argparse.option_string := "--rows";
                                 argparse.explicit_arg := Some w |})) ws)
         rest) out
    = argparse.consume help_text
        (fold_left
           (fun ns w =>
              match builtin_int w with
              | Some a => {| argparse.rows := PyInt a |}
              | None => ns
              end) ws namespace) extras rest out.
Proof.
  induction 1 as [|w ws Hw _ IH]; intros rest namespace extras out;
    [reflexivity|].
  cbn [map app argparse.consume argparse.action argparse.explicit_arg
       fold_left].
  unfold bind at 1. rewrite get_values_single.
  destruct (builtin_int w) as [a|] eqn:Ha; [|contradiction].
  rewrite (builtin_int_not_separator _ _ Ha). apply IH.
Qed.

Lemma pattern_rows_eq_all (ws : list string) :
  argparse.arg_strings_pattern (map (append "--rows=") ws)
  = Some (map (fun w =>
                 ("--rows=" ++ w,
                  argparse.pO {| argparse.action := Some argparse.StoreRows;
                                 argparse.option_string := "--rows";
                                 argparse.explicit_arg := Some w |})) ws).
Proof.
  induction ws as [|w ws IH]; [reflexivity|].
  cbn [map]. rewrite pattern_rows_eq, IH. reflexivity.
Qed.

(** What [int] accepts is ASCII text. *)
Lemma digits_value_ascii (s : string) (a : Z) :
  digits_value s = Some a -> Str.is_ascii s = true.
Proof.
  unfold digits_value.
  destruct (well_grouped false s) eqn:Hg; [intros _ | discriminate].
  revert Hg. generalize false.
  induction s as [|c t IH]; intros b; [reflexivity|].
  cbn [well_grouped Str.is_ascii].
  destruct (Str.is_digit c) eqn:Hc.
  - intros Ht. rewrite (IH _ Ht), andb_true_r.
    unfold Str.is_digit in Hc. apply andb_true_iff in Hc as [_ Hc].
    apply Nat.leb_le in Hc. apply Nat.ltb_lt. lia.
  - destruct (Ascii.eqb_spec c "_") as [->|]; [|discriminate].
    intros Ht. apply andb_true_iff in Ht as [_ Ht].
    now rewrite (IH _ Ht).
Qed.

Lemma lstrip_ascii (s : string) :
  Str.is_ascii (Str.lstrip s) = true -> Str.is_ascii s = true.
Proof.
  induction s as [|c t IH]; [reflexivity|]. cbn [Str.lstrip].
  destruct (Str.is_space c) eqn:Hc; [|auto].
  intros H. cbn [Str.is_ascii]. rewrite (IH H), andb_true_r.
  unfold Str.is_space in Hc. apply Nat.ltb_lt.
  apply orb_true_iff in Hc as [Hc|Hc].
  - apply andb_true_iff in Hc as [_ Hc]. apply Nat.leb_le in Hc. lia.
  - apply Nat.eqb_eq in Hc. lia.
Qed.

Lemma rstrip_ascii (s : string) :
  Str.is_ascii (Str.rstrip s) = true -> Str.is_ascii s = true.
Proof.
  induction s as [|c t IH]; [reflexivity|]. cbn [Str.rstrip].
  assert (Hsp : Str.is_space c = true -> (nat_of_ascii c <? 128)%nat = true).
  { unfold Str.is_space. intros Hc. apply Nat.ltb_lt.
    apply orb_true_iff in Hc as [Hc|Hc].
    - apply andb_true_iff in Hc as [_ Hc]. apply Nat.leb_le in Hc. lia.
    - apply Nat.eqb_eq in Hc. lia. }
  destruct (Str.rstrip t) as [|d t'] eqn:Ht.
  - specialize (IH eq_refl). cbn [Str.is_ascii]. rewrite IH, andb_true_r.
    destruct (Str.is_space c) eqn:Hc; [intros _; now apply Hsp|].
    cbn [Str.is_ascii]. now rewrite andb_true_r.
  - cbn [Str.is_ascii]. intros H. apply andb_true_iff in H as [Hc Hd].
    now rewrite Hc, (IH Hd).
Qed.

Lemma py_int_ascii (s : string) (a : Z) :
  py_int s = Some a -> Str.is_ascii s = true.
Proof.
  unfold py_int, Str.strip. intros H.
  apply lstrip_ascii, rstrip_ascii.
  destruct (Str.rstrip (Str.lstrip s)) as [|c t]; [discriminate|].
  destruct (Ascii.eqb_spec c "-") as [->|];
    [|destruct (Ascii.eqb_spec c "+") as [->|]].
  - destruct (digits_value t) as [x|] eqn:Hx; [|discriminate].
    cbn [Str.is_ascii]. now rewrite (digits_value_ascii _ _ Hx).
  - cbn [Str.is_ascii]. now rewrite (digits_value_ascii _ _ H).
  - exact (digits_value_ascii _ _ H).
Qed.

(** X9: [--rows=v] sets [rows] to [int(v)], and when the option is
    repeated the last one wins: on a command line of [--rows=v] options
    whose values [int] converts (ASCII decimal literals of at most 4300
    digits), [rows] is the integer of the last; such values are ASCII
    text. *)
Theorem last_rows_wins (help_text : string) (ws : list string) (v : string)
    (a : Z) :
  Forall (fun w => builtin_int w <> None) ws ->
  builtin_int v = Some a ->
  parses_to help_text (map (append "--rows=") (ws ++ [v])%list) (PyInt a)
  /\ Forall (fun w => Str.is_ascii w = true) (ws ++ [v])%list
  /\ Forall (fun w => Str.count_digits w <= 4300) (ws ++ [v])%list.
Proof.
  intros Hws Hv.
  assert (Hall : Forall (fun w => builtin_int w <> None) (ws ++ [v])%list).
  { apply Forall_app. split; [exact Hws|].
    constructor; [congruence | constructor]. }
  split; [|split].
  - unfold parses_to, outcome, argparse.parse_args.
    rewrite pattern_rows_eq_all. unfold bind.
    rewrite <- (List.app_nil_r (map _ (ws ++ [v])%list)).
    rewrite (consume_rows_eq _ _ Hall).
    rewrite fold_left_app. cbn [fold_left]. rewrite Hv. reflexivity.
  - eapply Forall_impl; [|exact Hall]. intros w Hw. cbv beta in Hw.
    destruct (builtin_int w) as [x|] eqn:Hx; [|contradiction].
    exact (py_int_ascii _ _ (builtin_int_some _ _ Hx)).
  - eapply Forall_impl; [|exact Hall]. intros w Hw. cbv beta in Hw.
    unfold builtin_int, int_max_str_digits in Hw.
    destruct (Z.leb_spec (Str.count_digits w) 4300); [assumption|].
    contradiction.
Qed.

Lemma last_rows_wins_witness :
  parses_to "usage" (map (append "--rows=") (["1"; " 2_0 "] ++ ["-3"])%list)
    (PyInt (-3))
  /\ Forall (fun w => Str.is_ascii w = true) (["1"; " 2_0 "] ++ ["-3"])%list
  /\ Forall (fun w => Str.count_digits w <= 4300)
       (["1"; " 2_0 "] ++ ["-3"])%list.
Proof.
  apply (last_rows_wins "usage" ["1"; " 2_0 "] "-3" (-3)).
  - repeat constructor; discriminate.
  - reflexivity.
Defined.

Lemma chomp_all_digits (c : ascii) (d : string) :
  Str.all_digits d = true -> argparse.chomp (String c d) = String c d
  \/ d = EmptyString.
Proof.
  revert c. induction d as [|e d IH]; intros c H; [now right|]. left.
  simpl in H. apply andb_true_iff in H as [He Hd].
  cbn [argparse.chomp]. f_equal.
  destruct (IH e Hd) as [Heq | ->]; [exact Heq|].
  cbn [argparse.chomp]. now rewrite (digit_not_char e Str.LF eq_refl He).
Qed.

(** A minus sign followed by digits is taken as an argument, not as an
    option: the parser has no option that looks like a negative number. *)
Lemma parse_optional_negative (d : string) :
  Str.all_digits d = true -> d <> EmptyString ->
  argparse.parse_optional (String "-" d) = argparse.Positional.
Proof.
  intros Hd Hne.
  assert (Hneg : argparse.negative_number (String "-" d) = true).
  { unfold argparse.negative_number.
    destruct (chomp_all_digits "-" d Hd) as [-> | ->]; [|contradiction].
    rewrite Hd. now destruct d. }
  assert (Heq : Str.contains "=" (String "-" d) = false).
  { cbn [Str.contains]. now rewrite (all_digits_contains "=" d eq_refl Hd). }
  destruct d as [|c t]; [contradiction|].
  pose proof Hd as Hc. simpl in Hc. apply andb_true_iff in Hc as [Hc _].
  unfold argparse.parse_optional. cbn [negb Ascii.eqb Bool.eqb].
  assert (Hlook : argparse.lookup (String "-" (String c t))
                    argparse.option_string_actions = None).
  { cbn [argparse.lookup argparse.option_string_actions String.eqb].
    rewrite !Ascii.eqb_refl.
    rewrite (digit_not_char c "h" eq_refl Hc),
      (digit_not_char c "-" eq_refl Hc). reflexivity. }
  rewrite Hlook, Heq, Hneg. cbn [String.length Nat.eqb].
  assert (Htup : argparse.get_option_tuples (String "-" (String c t)) = []).
  { destruct c as [[] [] [] [] [] [] [] []]; try discriminate Hc;
      reflexivity. }
  now rewrite Htup.
Qed.

Lemma count_digits_all_digits (s : string) :
  Str.all_digits s = true ->
  Str.count_digits s = Z.of_nat (String.length s).
Proof.
  induction s as [|c t IH]; [reflexivity|].
  cbn [Str.all_digits Str.count_digits String.length]. intros H.
  apply andb_true_iff in H as [Hc Ht]. rewrite Hc, (IH Ht). lia.
Qed.

(** The digits of [str(n)] are those of [str(abs(n))]. *)
Lemma count_digits_str (n : Z) :
  Str.count_digits (str n) = Z.of_nat (String.length (str (Z.abs n))).
Proof.
  destruct n as [|p|p]; cbn [Z.abs].
  - reflexivity.
  - apply count_digits_all_digits, str_all_digits. lia.
  - rewrite str_neg. cbn [Str.count_digits].
    change (Str.is_digit "-") with false. cbv iota. rewrite Z.add_0_l.
    apply count_digits_all_digits, str_all_digits. lia.
Qed.

(** [--rows=v] with a [v] that [int] rejects is a parser error, unless [v]
    is the separator [--]. *)
Lemma parse_args_rows_eq_rejected (help_text v : string) :
  builtin_int v = None ->
  String.eqb v "--" = false ->
  argparse.parse_args help_text ["--rows=" ++ v] EmptyString
  = (EmptyString, SystemExit 2).
Proof.
  intros Hv Hdash. unfold argparse.parse_args.
  rewrite pattern_rows_eq. cbn [argparse.arg_strings_pattern option_map].
  unfold bind. cbn [argparse.consume argparse.action argparse.explicit_arg].
  unfold bind. rewrite get_values_single, Hdash, Hv. reflexivity.
Qed.

(** X10: every integer whose decimal text has at most 4300 digits, the
    interpreter's limit for [int], can be passed on the command line as
    [--rows n] or as [--rows=n], negative ones included: [rows] is then
    that integer. *)
Theorem every_integer_accepted (help_text : string) (n : Z) :
  Z.of_nat (String.length (str (Z.abs n))) <= 4300 ->
  parses_to help_text ["--rows"; str n] (PyInt n)
  /\ parses_to help_text ["--rows=" ++ str n] (PyInt n).
Proof.
  intros Hlen.
  assert (Hd : Str.count_digits (str n) <= int_max_str_digits)
    by (now rewrite count_digits_str).
  split; [|now apply rows_option_parses].
  destruct (Z.neg_nonneg_cases n) as [Hn|Hn]; [|now apply rows_value_parses].
  destruct n as [|p|p]; try lia.
  unfold parses_to, outcome, argparse.parse_args.
  rewrite pattern_rows_cons. cbn [argparse.arg_strings_pattern].
  rewrite str_not_separator, str_neg.
  rewrite parse_optional_negative
    by (apply str_all_digits || apply str_not_empty; lia).
  cbn [option_map]. unfold bind.
  cbn [argparse.consume argparse.action argparse.explicit_arg].
  unfold bind. rewrite <- str_neg.
  rewrite get_values_single, str_not_separator, (builtin_int_str _ Hd).
  reflexivity.
Qed.

Lemma every_integer_accepted_witness :
  parses_to "usage" ["--rows"; str (-128)] (PyInt (-128))
  /\ parses_to "usage" ["--rows=" ++ str (-128)] (PyInt (-128)).
Proof.
  apply (every_integer_accepted "usage" (-128)). vm_compute. discriminate.
Defined.

Lemma parse_args_rows_explicit (help_text : string) (argv : list string)
    (t v : string) (a : Z) :
  argparse.arg_strings_pattern argv
  = Some [(t, argparse.pO {| argparse.action := Some argparse.StoreRows;
                             argparse.option_string := "--rows";
                             argparse.explicit_arg := Some v |})] ->
  builtin_int v = Some a ->
  parses_to help_text argv (PyInt a).
Proof.
  intros Hp Hv. unfold parses_to, outcome, argparse.parse_args.
  rewrite Hp. unfold bind.
  cbn [argparse.consume argparse.action argparse.explicit_arg].
  unfold bind.
  rewrite get_values_single, (builtin_int_not_separator _ _ Hv), Hv.
  reflexivity.
Qed.

(** X11: the option can be abbreviated: for a value [v] that [int]
    converts (an ASCII decimal literal of at most 4300 digits), [--r=v],
    [--ro=v] and [--row=v] set [rows] to [int(v)] as [--rows=v] does. *)
Theorem abbreviated_rows_accepted (help_text v : string) (a : Z) :
  builtin_int v = Some a ->
  (parses_to help_text ["--r=" ++ v] (PyInt a)
   /\ parses_to help_text ["--ro=" ++ v] (PyInt a)
   /\ parses_to help_text ["--row=" ++ v] (PyInt a)
   /\ parses_to help_text ["--rows=" ++ v] (PyInt a))
  /\ Str.is_ascii v = true
  /\ Str.count_digits v <= 4300.
Proof.
  intros Hv. split; [|split].
  - repeat split;
      (eapply parse_args_rows_explicit; [reflexivity | exact Hv]).
  - exact (py_int_ascii _ _ (builtin_int_some _ _ Hv)).
  - unfold builtin_int, int_max_str_digits in Hv.
    destruct (Z.leb_spec (Str.count_digits v) 4300); [assumption|].
    discriminate.
Qed.

Lemma abbreviated_rows_accepted_witness :
  (parses_to "usage" ["--r=" ++ "12"] (PyInt 12)
   /\ parses_to "usage" ["--ro=" ++ "12"] (PyInt 12)
   /\ parses_to "usage" ["--row=" ++ "12"] (PyInt 12)
   /\ parses_to "usage" ["--rows=" ++ "12"] (PyInt 12))
  /\ Str.is_ascii "12" = true
  /\ Str.count_digits "12" <= 4300.
Proof.
  apply (abbreviated_rows_accepted "usage" "12" 12). reflexivity.
Defined.

(** X13: an ASCII value that [int] does not convert is refused before
    anything is written: on the command line [--rows v] with such a [v],
    the run ends in the parser with exit status 2 and empty standard
    output. *)
Theorem invalid_rows_rejected (help_text v : string) :
  Str.is_ascii v = true ->
  builtin_int v = None ->
  stdout (generate_big_csv help_text ["--rows"; v]) = EmptyString
  /\ outcome (generate_big_csv help_text ["--rows"; v]) = SystemExit 2
  /\ exit_status (generate_big_csv help_text ["--rows"; v]) = 2.
Proof.
  intros _ Hv.
  pose proof (run_exit _ _ _ _ (parse_args_rows_rejected help_text v Hv))
    as Hrun.
  unfold exit_status, outcome, stdout. rewrite Hrun. now repeat split.
Qed.

Lemma invalid_rows_rejected_witness :
  stdout (generate_big_csv "usage" ["--rows"; "1e3"]) = EmptyString
  /\ outcome (generate_big_csv "usage" ["--rows"; "1e3"]) = SystemExit 2
  /\ exit_status (generate_big_csv "usage" ["--rows"; "1e3"]) = 2.
Proof.
  apply (invalid_rows_rejected "usage" "1e3"); reflexivity.
Defined.

(** X14: there is an upper bound on [rows] after all: an integer whose
    decimal text has more than 4300 digits is refused by [int], so that
    [--rows n] and [--rows=n] end in the parser with exit status 2 and
    empty standard output. *)
Theorem over_limit_rows_rejected (help_text : string) (n : Z) :
  4300 < Z.of_nat (String.length (str (Z.abs n))) ->
  (stdout (generate_big_csv help_text ["--rows"; str n]) = EmptyString
   /\ exit_status (generate_big_csv help_text ["--rows"; str n]) = 2)
  /\ (stdout (generate_big_csv help_text ["--rows=" ++ str n]) = EmptyString
      /\ exit_status (generate_big_csv help_text ["--rows=" ++ str n]) = 2).
Proof.
  intros Hlen.
  assert (Hv : builtin_int (str n) = None).
  { unfold builtin_int, int_max_str_digits. rewrite count_digits_str.
    destruct (Z.leb_spec (Z.of_nat (String.length (str (Z.abs n)))) 4300);
      [lia | reflexivity]. }
  pose proof (run_exit _ _ _ _ (parse_args_rows_rejected help_text _ Hv))
    as Hrun1.
  pose proof (run_exit _ _ _ _
                (parse_args_rows_eq_rejected help_text _ Hv
                   (str_not_separator n))) as Hrun2.
  unfold exit_status, outcome, stdout. rewrite Hrun1, Hrun2.
  now repeat split.
Qed.

Lemma over_limit_rows_rejected_witness :
  (stdout (generate_big_csv "usage" ["--rows"; str (10 ^ 4300)]) = EmptyString
   /\ exit_status (generate_big_csv "usage" ["--rows"; str (10 ^ 4300)]) = 2)
  /\ (stdout (generate_big_csv "usage" ["--rows=" ++ str (10 ^ 4300)])
      = EmptyString
      /\ exit_status (generate_big_csv "usage" ["--rows=" ++ str (10 ^ 4300)])
         = 2).
Proof.
  apply (over_limit_rows_rejected "usage" (10 ^ 4300)).
  vm_compute. reflexivity.
Defined.

(** The strings set aside as unrecognised are never dropped again. *)
Lemma consume_keeps_extras (help_text : string) (n : nat) :
  forall args, (List.length args <= n)%nat ->
  forall namespace extras out out' namespace' extras',
    argparse.consume help_text namespace extras args out
    = (out', Value (namespace', extras')) ->
    exists more : list string, extras' = (extras ++ more)%list.
Proof.
  induction n as [|n IH];
    intros args Hlen namespace extras out out' namespace' extras'.
  - destruct args; [|simpl in Hlen; lia].
    intros [= _ _ <-]. exists []. now rewrite List.app_nil_r.
  - destruct args as [|[s p] rest].
    { intros [= _ _ <-]. exists []. now rewrite List.app_nil_r. }
    simpl in Hlen.
    assert (Hrest : (List.length rest <= n)%nat) by lia.
    assert (Hskip :
      argparse.consume help_text namespace (extras ++ [s]) rest out
      = (out', Value (namespace', extras')) ->
      exists more : list string, extras' = (extras ++ more)%list).
    { intros H. apply (IH _ Hrest) in H as [more ->].
      exists (s :: more). now rewrite <- List.app_assoc. }
    destruct p as [|t|]; cbn [argparse.consume]; try exact Hskip.
    destruct (argparse.action t) as [[|]|]; try exact Hskip.
    + destruct (argparse.explicit_arg t) as [e|];
        [destruct (_ && _)|]; discriminate.
    + destruct (argparse.explicit_arg t) as [e|].
      * unfold bind. rewrite get_values_single.
        destruct (String.eqb e "--"); [apply (IH _ Hrest)|].
        destruct (builtin_int e); [apply (IH _ Hrest) | discriminate].
      * destruct rest as [|[a [|t'|]] rest']; try discriminate.
        simpl in Hrest.
        unfold bind. rewrite get_values_single.
        destruct (String.eqb a "--"); [apply IH; lia|].
        destruct (builtin_int a); [apply IH; lia | discriminate].
Qed.

Lemma not_dash_positional (s : string) :
  Str.startswith s "-" = false ->
  String.eqb s "--" = false
  /\ argparse.parse_optional s = argparse.Positional.
Proof.
  unfold Str.startswith. destruct s as [|c t]; [now split|].
  cbn [String.prefix].
  destruct (ascii_dec "-" c) as [<-|Hc]; [now destruct t|]. intros _.
  assert (Hcb : Ascii.eqb c "-" = false)
    by (apply Ascii.eqb_neq; congruence).
  split.
  - cbn [String.eqb]. now rewrite Hcb.
  - unfold argparse.parse_optional. now rewrite Hcb.
Qed.

(** X12: the script takes no positional argument: when the first argument
    does not start with [-], the run ends in the parser, with exit status 2
    and nothing written, or, if a help option follows, with the help text
    and exit status 0; the header line is not written. *)
Theorem leading_argument_rejected (help_text s : string)
    (rest : list string) :
  Str.startswith s "-" = false ->
  (stdout (generate_big_csv help_text (s :: rest)) = EmptyString
   /\ outcome (generate_big_csv help_text (s :: rest)) = SystemExit 2)
  \/ (stdout (generate_big_csv help_text (s :: rest)) = help_text
      /\ outcome (generate_big_csv help_text (s :: rest)) = SystemExit 0).
Proof.
  intros Hs. apply not_dash_positional in Hs as [Hdash Hpos].
  assert (Hparse :
    argparse.parse_args help_text (s :: rest) EmptyString
    = (EmptyString, SystemExit 2)
    \/ argparse.parse_args help_text (s :: rest) EmptyString
       = (help_text, SystemExit 0)).
  { unfold argparse.parse_args. cbn [argparse.arg_strings_pattern].
    rewrite Hdash, Hpos.
    destruct (argparse.arg_strings_pattern rest) as [args|];
      cbn [option_map]; [|now left].
    unfold bind. cbn [argparse.consume app].
    pose proof (consume_end help_text _ args (le_n _)
                  {| argparse.rows := PyNone |} [s] EmptyString) as E.
    inversion E as [Heq | Heq | [ns extras] Heq]; [now right | now left|].
    symmetry in Heq.
    apply (consume_keeps_extras help_text _ args (le_n _)) in Heq as Hex.
    destruct Hex as [more ->]. now left. }
  unfold stdout, outcome.
  destruct Hparse as [H|H]; rewrite (run_exit _ _ _ _ H); [left | right];
    now split.
Qed.

Lemma leading_argument_rejected_witness :
  (stdout (generate_big_csv "usage" ["10"; "--rows"; "10"]) = EmptyString
   /\ outcome (generate_big_csv "usage" ["10"; "--rows"; "10"])
      = SystemExit 2)
  \/ (stdout (generate_big_csv "usage" ["10"; "--rows"; "10"]) = "usage"
      /\ outcome (generate_big_csv "usage" ["10"; "--rows"; "10"])
         = SystemExit 0).
Proof.
  apply (leading_argument_rejected "usage" "10" ["--rows"; "10"]).
  reflexivity.
Defined.
